(** * CityPulse: the Urban Stress Index core

    A shallow embedding of the decision logic of the CityPulse dashboard:

    - [FE/src/components/NodeIntelligence.tsx]: [getStressColor],
      [getStressLabel] and, from the mock-data module that follows it,
      [calculateStressIndex], [generateMockNodeData],
      [generateActivityLog], [generateHistoricalData];
    - [FE/src/App.tsx]: the updates of the activity log;
    - [BE/src/server.js]: [fallbackAnomalyDetection],
      [fallbackForecast], [getNodeName].

    JavaScript numbers are modelled by exact rationals ([Q]); the
    front-end scoring code and the back-end detector, which work on
    whatever they are handed, additionally see [NaN] and [undefined].
    Where the rounding of binary64 decides a result, the scoring is
    also given with an explicit rounding and with the machine's own
    operations.  The infinities are outside the model.  [Math.random]
    and [Date] are explicit inputs. *)

From Stdlib Require Import QArith Qround Qabs ZArith List String Bool Lia Lqa.
From Stdlib Require Import DecimalString Morphisms.
From Stdlib Require Import PrimFloat SpecFloat FloatOps.
Import ListNotations.

Local Open Scope string_scope.
Local Open Scope list_scope.
Local Open Scope Q_scope.

(** ** JavaScript numbers *)

Module JS.

(** A number is a finite rational or NaN. *)
Inductive num : Type :=
| Fin (q : Q)
| NaN.

(** A property read yields a number or, when the field is missing,
    [undefined]. *)
Inductive value : Type :=
| Undefined
| Number (n : num).

(** ToNumber: [undefined] becomes NaN. *)
Definition toNumber (v : value) : num :=
  match v with
  | Undefined => NaN
  | Number n => n
  end.

Definition lift2 (f : Q -> Q -> Q) (a b : num) : num :=
  match a, b with
  | Fin x, Fin y => Fin (f x y)
  | _, _ => NaN
  end.

Definition add : num -> num -> num := lift2 Qplus.
Definition sub : num -> num -> num := lift2 Qminus.
Definition mul : num -> num -> num := lift2 Qmult.
(** Division; the code divides by non-zero literals only. *)
Definition div : num -> num -> num := lift2 Qdiv.

(** [Math.min] and [Math.max] on rationals. *)
Definition qmin (x y : Q) : Q := if Qle_bool x y then x else y.
Definition qmax (x y : Q) : Q := if Qle_bool x y then y else x.

(** [Math.round]: the nearest integer, ties towards plus infinity. *)
Definition qround (x : Q) : Z := Qfloor (x + (1 # 2)).

Definition min : num -> num -> num := lift2 qmin.
Definition max : num -> num -> num := lift2 qmax.
Definition round (a : num) : num :=
  match a with
  | Fin x => Fin (inject_Z (qround x))
  | NaN => NaN
  end.

(** Comparisons: false as soon as one side is NaN. *)
Definition gt (a b : num) : bool :=
  match a, b with
  | Fin x, Fin y => negb (Qle_bool x y)
  | _, _ => false
  end.

Definition ge (a b : num) : bool :=
  match a, b with
  | Fin x, Fin y => Qle_bool y x
  | _, _ => false
  end.

End JS.

(** The comparison [x > y] of rationals as a boolean, for the code that
    only ever sees finite numbers; [x <= y] is [Qle_bool]. *)
Definition Qgtb (x y : Q) : bool := negb (Qle_bool x y).

(** JavaScript arrays: [push], [slice(-n)], [slice(0, n)], [includes]. *)
Definition push {A : Type} (l : list A) (x : A) : list A := l ++ [x].
Definition sliceLast {A : Type} (n : nat) (l : list A) : list A :=
  skipn (List.length l - n)%nat l.
Definition sliceFirst {A : Type} (n : nat) (l : list A) : list A := firstn n l.
Definition includes (l : list string) (s : string) : bool :=
  existsb (String.eqb s) l.

(** Decimal rendering of an integer, as a template literal does it. *)
Definition showZ (z : Z) : string := NilZero.string_of_int (Z.to_int z).

(** ** Front end: the data types *)

Record SensorData : Type := mkSensorData {
  noise : JS.value;
  temp : JS.value;
  airQuality : JS.value;
  crowd : JS.value
}.

Module NodeData.
Record t : Type := mk {
  nodeId : string;
  coordinates : Q * Q;
  sensors : SensorData;
  stressIndex : JS.num;
  isAnomaly : bool;
  aiExplanation : string;
  timestamp : Z
}.
End NodeData.

Inductive EventType : Type := Normal | Elevated | Critical.

Module ActivityLogEntry.
Record t : Type := mk {
  id : string;
  timestamp : Z;
  nodeId : string;
  eventType : EventType;
  value : JS.num
}.
End ActivityLogEntry.

Module HistoricalDataPoint.
Record t : Type := mk {
  timestamp : Z;
  stressIndex : JS.num;
  noise : JS.value;
  temp : JS.value;
  airQuality : JS.value;
  crowd : JS.value
}.
End HistoricalDataPoint.

(** A reading all of whose fields are present and finite. *)
Definition finiteSensors (n t a c : Q) : SensorData :=
  mkSensorData (JS.Number (JS.Fin n)) (JS.Number (JS.Fin t))
               (JS.Number (JS.Fin a)) (JS.Number (JS.Fin c)).

(** A field is malformed when it is missing or NaN. *)
Definition malformedField (v : JS.value) : Prop := JS.toNumber v = JS.NaN.

Definition malformed (s : SensorData) : Prop :=
  malformedField (noise s) \/ malformedField (temp s) \/
  malformedField (airQuality s) \/ malformedField (crowd s).

(** ** Front end: the scoring engine *)

Module weights.
Definition noise : JS.num := JS.Fin 0.4.
Definition temp : JS.num := JS.Fin 0.25.
Definition air : JS.num := JS.Fin 0.2.
Definition crowd : JS.num := JS.Fin 0.15.
End weights.

Definition nScore (sensors : SensorData) : JS.num :=
  JS.min (JS.mul (JS.div (JS.sub (JS.toNumber (noise sensors)) (JS.Fin 40)) (JS.Fin 60))
                 (JS.Fin 100))
         (JS.Fin 100).

Definition tScore (sensors : SensorData) : JS.num :=
  JS.min (JS.mul (JS.div (JS.sub (JS.toNumber (temp sensors)) (JS.Fin 15)) (JS.Fin 25))
                 (JS.Fin 100))
         (JS.Fin 100).

Definition aScore (sensors : SensorData) : JS.num :=
  JS.min (JS.mul (JS.div (JS.toNumber (airQuality sensors)) (JS.Fin 150)) (JS.Fin 100))
         (JS.Fin 100).

Definition dScore (sensors : SensorData) : JS.num :=
  JS.min (JS.mul (JS.div (JS.toNumber (crowd sensors)) (JS.Fin 30)) (JS.Fin 100))
         (JS.Fin 100).

Definition calculateStressIndex (sensors : SensorData) : JS.num :=
  JS.max (JS.Fin 0)
    (JS.round
       (JS.add
          (JS.add
             (JS.add (JS.mul (nScore sensors) weights.noise)
                     (JS.mul (tScore sensors) weights.temp))
             (JS.mul (aScore sensors) weights.air))
          (JS.mul (dScore sensors) weights.crowd))).

(** What a caller of [calculateStressIndex] observes.  The body has no
    [throw] and its arithmetic raises nothing on numbers or
    [undefined], so every call completes with a number, possibly NaN. *)
Inductive outcome : Type :=
| Returned (v : JS.num)
| Thrown (kind : string).

Definition callCalculateStressIndex (sensors : SensorData) : outcome :=
  Returned (calculateStressIndex sensors).

(** ** Front end: the mock generators *)

Definition sensorNodes : list (string * (Q * Q) * string) :=
  [ ("CP-MOH-01", (76.6934, 30.7046), "IT Park Sector 70");
    ("CP-MOH-02", (76.7179, 30.7010), "Phase 11");
    ("CP-MOH-03", (76.7292, 30.7120), "Phase 7");
    ("CP-MOH-04", (76.6512, 30.6815), "Sector 77");
    ("CP-MOH-05", (76.7245, 30.6885), "Phase 3B2") ]%string.

(** The four sensors drawn by [generateMockNodeData]; [r1] .. [r4] are
    the successive results of [Math.random()]. *)
Definition mockSensors (r1 r2 r3 r4 : Q) : SensorData :=
  {| noise := JS.Number (JS.Fin (inject_Z (JS.qround ((40 + r1 * 55) * 10)) / 10));
     temp := JS.Number (JS.Fin (inject_Z (JS.qround ((18 + r2 * 17) * 10)) / 10));
     airQuality := JS.Number (JS.Fin (inject_Z (JS.qround (30 + r3 * 100))));
     crowd := JS.Number (JS.Fin (inject_Z (JS.qround (r4 * 25)))) |}.

(** The rest of [generateMockNodeData], once the sensors are drawn;
    [now] is the result of [Date.now()]. *)
Definition mockNodeDataOf (nodeId : string) (coordinates : Q * Q)
    (sensors : SensorData) (now : Z) : NodeData.t :=
  let stressIndex := calculateStressIndex sensors in
  let isAnomaly := JS.gt stressIndex (JS.Fin 80) in
  let aiExplanation :=
    if JS.gt stressIndex (JS.Fin 80) then
      if JS.gt (JS.toNumber (noise sensors)) (JS.Fin 85) then
        "Critical noise levels detected. Likely heavy construction or congestion."
      else if JS.gt (JS.toNumber (temp sensors)) (JS.Fin 32) then
        "High thermal stress. Heat island effect detected in this sector."
      else
        "Multi-sensor correlation indicates a localized urban stress anomaly."
    else if JS.gt stressIndex (JS.Fin 55) then
      "Elevated activity levels. Monitoring for potential ordinance threshold breach."
    else
      "Sensing parameters nominal. No immediate infrastructure intervention required."
  in
  NodeData.mk nodeId coordinates sensors stressIndex isAnomaly
              aiExplanation%string now.

Definition generateMockNodeData (nodeId : string) (coordinates : Q * Q)
    (r1 r2 r3 r4 : Q) (now : Z) : NodeData.t :=
  mockNodeDataOf nodeId coordinates (mockSensors r1 r2 r3 r4) now.

Definition generateActivityLog (nodeData : NodeData.t) : ActivityLogEntry.t :=
  let eventType :=
    if JS.gt (NodeData.stressIndex nodeData) (JS.Fin 80) then Critical
    else if JS.gt (NodeData.stressIndex nodeData) (JS.Fin 55) then Elevated
    else Normal in
  {| ActivityLogEntry.id :=
       (NodeData.nodeId nodeData ++ "-" ++ showZ (NodeData.timestamp nodeData))%string;
     ActivityLogEntry.timestamp := NodeData.timestamp nodeData;
     ActivityLogEntry.nodeId := NodeData.nodeId nodeData;
     ActivityLogEntry.eventType := eventType;
     ActivityLogEntry.value := NodeData.stressIndex nodeData |}.

Definition generateHistoricalData (currentData : NodeData.t)
    (existingHistory : list HistoricalDataPoint.t) : list HistoricalDataPoint.t :=
  let newPoint :=
    {| HistoricalDataPoint.timestamp := NodeData.timestamp currentData;
       HistoricalDataPoint.stressIndex := NodeData.stressIndex currentData;
       HistoricalDataPoint.noise := noise (NodeData.sensors currentData);
       HistoricalDataPoint.temp := temp (NodeData.sensors currentData);
       HistoricalDataPoint.airQuality := airQuality (NodeData.sensors currentData);
       HistoricalDataPoint.crowd := crowd (NodeData.sensors currentData) |} in
  sliceLast 20%nat (existingHistory ++ [newPoint]).

(** ** Front end: the node-intelligence panel *)

Definition getStressColor (stress : JS.num) : string :=
  if JS.ge stress (JS.Fin 75) then "#FF3B3B"
  else if JS.ge stress (JS.Fin 50) then "#FFB800"
  else "#00F5FF".

Definition getStressLabel (stress : JS.num) : string :=
  if JS.ge stress (JS.Fin 75) then "CRITICAL ANOMALY"
  else if JS.ge stress (JS.Fin 50) then "ELEVATED STRESS"
  else "NOMINAL PULSE".

(** ** Front end: the activity log and the history kept by [App] *)

(** The initial load pushes one entry per sensor node and stores the
    reversed array. *)
Definition initialActivityLog (initialData : list NodeData.t)
  : list ActivityLogEntry.t :=
  rev (fold_left (fun initialLog data => push initialLog (generateActivityLog data))
                 initialData []).

(** One polling tick regenerates two nodes; [newData1] and [newData2]
    are the two results of [generateMockNodeData], in that order. *)
Definition pollActivityLog (newData1 newData2 : NodeData.t)
    (prev : list ActivityLogEntry.t) : list ActivityLogEntry.t :=
  let newLogEntries :=
    fold_left (fun entries newData => push entries (generateActivityLog newData))
              [newData1; newData2] [] in
  sliceFirst 50 (rev newLogEntries ++ prev).

(** The crisis demo (key 'c'): the selected node overwritten with fixed
    values. *)
Definition crisisData (selectedNode : NodeData.t) (now : Z) : NodeData.t :=
  {| NodeData.nodeId := NodeData.nodeId selectedNode;
     NodeData.coordinates := NodeData.coordinates selectedNode;
     NodeData.stressIndex := JS.Fin 94;
     NodeData.isAnomaly := true;
     NodeData.sensors := finiteSensors 92.5 37.8 165 28;
     NodeData.aiExplanation :=
       "CRITICAL ALERT: Simultaneous spike in acoustic pollution and crowd density. Intervention required.";
     NodeData.timestamp := now |}.

Definition crisisActivityLog (selectedNode : NodeData.t) (now : Z)
    (prev : list ActivityLogEntry.t) : list ActivityLogEntry.t :=
  sliceFirst 50 (generateActivityLog (crisisData selectedNode now) :: prev).

(** The events that change the activity log after the initial load. *)
Inductive LogEvent : Type :=
| PollTick (newData1 newData2 : NodeData.t)
| CrisisKey (selectedNode : NodeData.t) (now : Z).

Definition logStep (log : list ActivityLogEntry.t) (e : LogEvent)
  : list ActivityLogEntry.t :=
  match e with
  | PollTick d1 d2 => pollActivityLog d1 d2 log
  | CrisisKey sel now => crisisActivityLog sel now log
  end.

Definition runActivityLog (initialData : list NodeData.t) (events : list LogEvent)
  : list ActivityLogEntry.t :=
  fold_left logStep events (initialActivityLog initialData).

(** The node data behind the log, oldest first. *)
Definition eventData (e : LogEvent) : list NodeData.t :=
  match e with
  | PollTick d1 d2 => [d1; d2]
  | CrisisKey sel now => [crisisData sel now]
  end.

Definition generatedData (initialData : list NodeData.t) (events : list LogEvent)
  : list NodeData.t :=
  initialData ++ flat_map eventData events.

(** The per-node history: selecting a node starts from the empty array,
    every later reading of that node goes through
    [generateHistoricalData]. *)
Definition appendHistory (readings : list NodeData.t)
  : list HistoricalDataPoint.t :=
  fold_left (fun prev newData => generateHistoricalData newData prev) readings [].

Definition historicalPoint (d : NodeData.t) : HistoricalDataPoint.t :=
  {| HistoricalDataPoint.timestamp := NodeData.timestamp d;
     HistoricalDataPoint.stressIndex := NodeData.stressIndex d;
     HistoricalDataPoint.noise := noise (NodeData.sensors d);
     HistoricalDataPoint.temp := temp (NodeData.sensors d);
     HistoricalDataPoint.airQuality := airQuality (NodeData.sensors d);
     HistoricalDataPoint.crowd := crowd (NodeData.sensors d) |}.

(** ** Back end: the fallback anomaly detector *)

Module Reading.
Record t : Type := mk {
  noise : Q;
  temperature : Q;
  air_quality : Q;
  crowd_density : Q;
  stress_index : Q
}.
End Reading.

(** The returned object; the early return has the first field only. *)
Module Detection.
Record t : Type := mk {
  is_anomaly : bool;
  anomaly_score : option Q;
  signals : option (list string);
  explanation : option string
}.
End Detection.

Section Detector.

(** Number-to-string conversion of a template literal; its digits play
    no part in what follows. *)
Variable toString : Q -> string.

Definition fallbackAnomalyDetection (reading : Reading.t) : Detection.t :=
  let signals : list string := [] in
  let explanation := "" in
  let signals :=
    if Qgtb (Reading.noise reading) 85 then push signals "noise" else signals in
  let signals :=
    if Qgtb (Reading.temperature reading) 35 then push signals "heat" else signals in
  let signals :=
    if Qgtb (Reading.air_quality reading) 120 then push signals "air_quality"
    else signals in
  let signals :=
    if Qgtb (Reading.crowd_density reading) 25 then push signals "crowd"
    else signals in
  if Nat.eqb (List.length signals) 0 && Qle_bool (Reading.stress_index reading) 80
  then Detection.mk false None None None
  else
    let '(explanation, signals) :=
      if includes signals "noise" then
        (("Noise level " ++ toString (Reading.noise reading)
            ++ " dB exceeds Mohali evening baseline")%string, signals)
      else if includes signals "heat" then
        (("Temperature " ++ toString (Reading.temperature reading)
            ++ "C indicates heat stress")%string, signals)
      else if includes signals "air_quality" then
        (("AQI " ++ toString (Reading.air_quality reading)
            ++ " above safe threshold")%string, signals)
      else if Qgtb (Reading.stress_index reading) 80 then
        ("Multi-sensor correlation indicates urban stress anomaly",
         push signals "composite")
      else (explanation, signals) in
    {| Detection.is_anomaly :=
         Qgtb (Reading.stress_index reading) 80
         || Nat.ltb 0 (List.length signals);
       Detection.anomaly_score :=
         Some (JS.qmin (Reading.stress_index reading / 100) 0.99);
       Detection.signals := Some signals;
       Detection.explanation := Some explanation |}.

(** The tags of a result, the empty array when the field is absent. *)
Definition signalTags (d : Detection.t) : list string :=
  match Detection.signals d with
  | Some l => l
  | None => []
  end.

End Detector.

(** ** Back end: the fallback forecast generator *)

Module ForecastPoint.
(** [timestamp] keeps the instant in epoch milliseconds; its ISO-8601
    rendering is not modelled. *)
Record t : Type := mk {
  timestamp : Z;
  minutes_ahead : Z;
  predicted_stress : Z;
  predicted_noise : Z;
  predicted_temp : Z;
  predicted_aqi : Z;
  predicted_crowd : Z;
  confidence : Q
}.
End ForecastPoint.

Module NodeForecast.
Record t : Type := mk {
  node_id : string;
  node_name : string;
  forecast : list ForecastPoint.t;
  trend : string
}.
End NodeForecast.

(** With a node id the generator returns one series, otherwise the
    array of all of them. *)
Inductive ForecastResult : Type :=
| OneNode (f : NodeForecast.t)
| AllNodes (fs : list NodeForecast.t).

Definition seriesOf (r : ForecastResult) : list NodeForecast.t :=
  match r with
  | OneNode f => [f]
  | AllNodes fs => fs
  end.

(** [names[nodeId] || nodeId] on the five own keys of [names]; the keys
    that an object literal inherits ([toString], [constructor], ...)
    are outside the model. *)
Definition getNodeName (nodeId : string) : string :=
  if String.eqb nodeId "node_1" then "Sector 17 Plaza"
  else if String.eqb nodeId "node_2" then "Phase 8 Industrial"
  else if String.eqb nodeId "node_3" then "IT City"
  else if String.eqb nodeId "node_4" then "Sector 70 Residential"
  else if String.eqb nodeId "node_5" then "Aerocity"
  else nodeId.

(** The calls made so far to [Math.random()] and to [new Date()]. *)
Record World : Type := mkWorld {
  randoms : nat;
  dates : nat
}.

(** The variables of the [for] loop. *)
Record LoopState : Type := mkLoop {
  loop_i : Z;
  prevStress : Q;
  forecast : list ForecastPoint.t;
  loop_randoms : nat
}.

Section Forecast.

(** [random k] is the result of the [k]-th call of [Math.random()],
    [clock k] the instant (epoch milliseconds) of the [k]-th
    [new Date()], [getHours] the local hour of an instant. *)
Variable random : nat -> Q.
Variable clock : nat -> Z.
Variable getHours : Z -> Z.

Definition baseFactorAt (hour : Z) : Q :=
  let baseFactor := if (8 <=? hour)%Z && (hour <=? 20)%Z then 1.2 else 0.8 in
  if (17 <=? hour)%Z && (hour <=? 19)%Z then 1.4 else baseFactor.

(** The stress drawn in one iteration, before any clamping. *)
Definition nextStress (hour : Z) (prev : Q) (r : Q) : Z :=
  JS.qround (prev * 0.7 + (45 * baseFactorAt hour) * 0.3 + (r - 0.5) * 5).

Definition loopBody (now : Z) (st : LoopState) : LoopState :=
  let i := loop_i st in
  let k := loop_randoms st in
  let futureTime := (now + i * 60 * 1000)%Z in
  let hour := getHours futureTime in
  let stress := nextStress hour (prevStress st) (random k) in
  let point :=
    {| ForecastPoint.timestamp := futureTime;
       ForecastPoint.minutes_ahead := i;
       ForecastPoint.predicted_stress := Z.max 20 (Z.min 85 stress);
       ForecastPoint.predicted_noise := JS.qround (55 + inject_Z stress * 0.3);
       ForecastPoint.predicted_temp := JS.qround (25 + random (S k) * 5);
       ForecastPoint.predicted_aqi := JS.qround (60 + inject_Z stress * 0.4);
       ForecastPoint.predicted_crowd := JS.qround (5 + inject_Z stress * 0.15);
       ForecastPoint.confidence := JS.qmax 0.65 (0.9 - inject_Z i * 0.003) |} in
  {| loop_i := (i + 15)%Z;
     prevStress := inject_Z stress;
     forecast := push (forecast st) point;
     loop_randoms := S (S k) |}.

(** [for (let i = 0; i <= horizon; i += 15)], with fuel. *)
Fixpoint forLoop (fuel : nat) (now horizon : Z) (st : LoopState) : LoopState :=
  match fuel with
  | O => st
  | S fuel' =>
      if (loop_i st <=? horizon)%Z
      then forLoop fuel' now horizon (loopBody now st)
      else st
  end.

(** Enough fuel for the loop to reach its exit test. *)
Definition loopFuel (horizon : Z) : nat := Z.to_nat (horizon / 15 + 1).

Definition initialLoop (w : World) : LoopState :=
  {| loop_i := 0;
     prevStress := 45 + random (randoms w) * 20;
     forecast := [];
     loop_randoms := S (randoms w) |}.

Definition classifyTrend (first last : ForecastPoint.t) : string :=
  if (ForecastPoint.predicted_stress last - ForecastPoint.predicted_stress first >? 8)%Z
  then "increasing"
  else if (ForecastPoint.predicted_stress first - ForecastPoint.predicted_stress last >? 8)%Z
  then "decreasing"
  else "stable".

(** The body of [nodes.map].  With an empty series (negative horizon)
    reading [predicted_stress] of [undefined] raises a TypeError:
    [None]. *)
Definition forecastNode (nid : string) (horizon : Z) (w : World)
  : option (NodeForecast.t * World) :=
  let now := clock (dates w) in
  let st := forLoop (loopFuel horizon) now horizon (initialLoop w) in
  match forecast st with
  | [] => None
  | first :: _ =>
      Some ({| NodeForecast.node_id := nid;
               NodeForecast.node_name := getNodeName nid;
               NodeForecast.forecast := forecast st;
               NodeForecast.trend := classifyTrend first (last (forecast st) first) |},
            {| randoms := loop_randoms st; dates := S (dates w) |})
  end.

Fixpoint mapNodes (nodes : list string) (horizon : Z) (w : World)
  : option (list NodeForecast.t * World) :=
  match nodes with
  | [] => Some ([], w)
  | nid :: rest =>
      match forecastNode nid horizon w with
      | None => None
      | Some (f, w1) =>
          match mapNodes rest horizon w1 with
          | None => None
          | Some (fs, w2) => Some (f :: fs, w2)
          end
      end
  end.

(** [nodeId] is tested for truthiness: absent and empty both mean all
    nodes. *)
Definition truthy (nodeId : option string) : option string :=
  match nodeId with
  | Some s => if String.eqb s "" then None else Some s
  | None => None
  end.

Definition fallbackForecast (nodeId : option string) (horizon : Z) (w : World)
  : option ForecastResult :=
  let nodes :=
    match truthy nodeId with
    | Some nid => [nid]
    | None => ["node_1"; "node_2"; "node_3"; "node_4"; "node_5"]
    end in
  match mapNodes nodes horizon w with
  | None => None
  | Some (forecasts, _) =>
      match truthy nodeId, forecasts with
      | Some _, f :: _ => Some (OneNode f)
      | Some _, [] => None
      | None, _ => Some (AllNodes forecasts)
      end
  end.

(** The loop states met while the loop runs from [st0]. *)
Inductive loopReaches (now horizon : Z) (st0 : LoopState) : LoopState -> Prop :=
| reaches_start : loopReaches now horizon st0 st0
| reaches_step : forall st,
    loopReaches now horizon st0 st ->
    (loop_i st <= horizon)%Z ->
    loopReaches now horizon st0 (loopBody now st).

End Forecast.

(** ** Front end: colours of the sensor rows, the feed and the map *)

(** [getSensorColor] of the node-intelligence panel. *)
Definition getSensorColor (sensorType : string) (value : JS.num) : string :=
  if String.eqb sensorType "noise" then
    if JS.gt value (JS.Fin 80) then "#FF3B3B"
    else if JS.gt value (JS.Fin 65) then "#FFB800" else "#00F5FF"
  else if String.eqb sensorType "temp" then
    if JS.gt value (JS.Fin 34) then "#FF3B3B"
    else if JS.gt value (JS.Fin 28) then "#FFB800" else "#00F5FF"
  else if String.eqb sensorType "airQuality" then
    if JS.gt value (JS.Fin 100) then "#FF3B3B"
    else if JS.gt value (JS.Fin 60) then "#FFB800" else "#00F5FF"
  else if String.eqb sensorType "crowd" then
    if JS.gt value (JS.Fin 20) then "#FF3B3B"
    else if JS.gt value (JS.Fin 12) then "#FFB800" else "#00F5FF"
  else "#00F5FF".

(** [getEventColor] of the activity feed. *)
Definition getEventColor (eventType : EventType) : string :=
  match eventType with
  | Critical => "text-[#FF3B3B]"
  | Elevated => "text-[#FFB800]"
  | Normal => "text-[#00F5FF]"
  end.

(** [getNodeColor] of the map; the marker colour [stressColor] is the
    same expression. *)
Definition getNodeColor (node : NodeData.t) : string :=
  if JS.gt (NodeData.stressIndex node) (JS.Fin 80) then "#FF3B3B"
  else if JS.gt (NodeData.stressIndex node) (JS.Fin 55) then "#FFB800"
  else "#00F5FF".

(** [isGlobalCritical] of [App], on the values of the node map. *)
Definition isGlobalCritical (nodes : list NodeData.t) : bool :=
  existsb (fun n => JS.gt (NodeData.stressIndex n) (JS.Fin 80)) nodes.

(** ** Front end: the anomaly alerts of [App] *)

(** A [Set] of strings: membership, [add], [delete]. *)
Definition setHas (s : list string) (x : string) : bool :=
  existsb (String.eqb x) s.
Definition setAdd (s : list string) (x : string) : list string :=
  if setHas s x then s else s ++ [x].
Definition setDelete (s : list string) (x : string) : list string :=
  filter (fun y => negb (String.eqb x y)) s.

(** [previousAnomaliesRef.current], and the nodes handed to
    [setAnomalyAlert] so far; the sound and the timer that clears the
    banner are not modelled. *)
Record AlertState : Type := mkAlertState {
  previousAnomalies : list string;
  alerts : list NodeData.t
}.

Definition triggerAnomalyEffects (node : NodeData.t) (st : AlertState)
  : AlertState :=
  {| previousAnomalies := setAdd (previousAnomalies st) (NodeData.nodeId node);
     alerts := push (alerts st) node |}.

(** What the polling loop does with one regenerated node. *)
Definition pollAlert (newData : NodeData.t) (st : AlertState) : AlertState :=
  let st :=
    if NodeData.isAnomaly newData
       && negb (setHas (previousAnomalies st) (NodeData.nodeId newData))
    then triggerAnomalyEffects newData st
    else st in
  if negb (NodeData.isAnomaly newData)
  then {| previousAnomalies :=
            setDelete (previousAnomalies st) (NodeData.nodeId newData);
          alerts := alerts st |}
  else st.

Definition alertStep (st : AlertState) (e : LogEvent) : AlertState :=
  match e with
  | PollTick d1 d2 => pollAlert d2 (pollAlert d1 st)
  | CrisisKey sel now => triggerAnomalyEffects (crisisData sel now) st
  end.

Definition runAlerts (events : list LogEvent) : AlertState :=
  fold_left alertStep events (mkAlertState [] []).

(** Whether the most recent of the readings of node [n] in [ds] is an
    anomaly; false when there is none. *)
Definition lastAnomalous (ds : list NodeData.t) (n : string) : bool :=
  fold_left (fun acc d => if String.eqb n (NodeData.nodeId d)
                          then NodeData.isAnomaly d else acc) ds false.

(** ** Back end: a forecast point read as a sensor reading *)

Definition readingOfPoint (p : ForecastPoint.t) : Reading.t :=
  {| Reading.noise := inject_Z (ForecastPoint.predicted_noise p);
     Reading.temperature := inject_Z (ForecastPoint.predicted_temp p);
     Reading.air_quality := inject_Z (ForecastPoint.predicted_aqi p);
     Reading.crowd_density := inject_Z (ForecastPoint.predicted_crowd p);
     Reading.stress_index := inject_Z (ForecastPoint.predicted_stress p) |}.

(** The minutes 0, 15, 30, ... of the first [k] points of a series. *)
Definition minuteGrid (k : nat) : list Z :=
  map (fun j => (15 * Z.of_nat j)%Z) (seq 0 k).

(** The signals of an anomalous result, threshold by threshold. *)
Definition expectedSignals (reading : Reading.t) : list string :=
  (if Qgtb (Reading.noise reading) 85 then ["noise"] else [])
  ++ (if Qgtb (Reading.temperature reading) 35 then ["heat"] else [])
  ++ (if Qgtb (Reading.air_quality reading) 120 then ["air_quality"] else [])
  ++ (if Qgtb (Reading.crowd_density reading) 25 then ["crowd"] else [])
  ++ (if Qgtb (Reading.stress_index reading) 80
         && negb (Qgtb (Reading.noise reading) 85)
         && negb (Qgtb (Reading.temperature reading) 35)
         && negb (Qgtb (Reading.air_quality reading) 120)
      then ["composite"] else []).

(** The ranges of the four mock sensors. *)
Definition mockRange (n t a c : Q) : Prop :=
  (40 <= n /\ n <= 95) /\ (18 <= t /\ t <= 35)
  /\ (30 <= a /\ a <= 130) /\ (0 <= c /\ c <= 25).

(** The ranges of the predicted values of a forecast point. *)
Definition pointInRange (p : ForecastPoint.t) : Prop :=
  (26 <= ForecastPoint.predicted_stress p <= 73)%Z
  /\ (63 <= ForecastPoint.predicted_noise p <= 77)%Z
  /\ (25 <= ForecastPoint.predicted_temp p <= 30)%Z
  /\ (70 <= ForecastPoint.predicted_aqi p <= 89)%Z
  /\ (9 <= ForecastPoint.predicted_crowd p <= 16)%Z.

(** The five nodes of a forecast without node id, and their names. *)
Definition allNodeIds : list string :=
  ["node_1"; "node_2"; "node_3"; "node_4"; "node_5"].
Definition allNodeNames : list string :=
  ["Sector 17 Plaza"; "Phase 8 Industrial"; "IT City";
   "Sector 70 Residential"; "Aerocity"].

(** What the loop keeps true of its counter and of the points pushed. *)
Definition loopShape (now horizon : Z) (st : LoopState) : Prop :=
  loop_i st = (15 * Z.of_nat (List.length (forecast st)))%Z
  /\ map ForecastPoint.minutes_ahead (forecast st)
     = minuteGrid (List.length (forecast st))
  /\ Forall (fun p => ForecastPoint.timestamp p
                      = (now + ForecastPoint.minutes_ahead p * 60 * 1000)%Z)
            (forecast st)
  /\ (forecast st <> [] -> (loop_i st - 15 <= horizon)%Z).

(** Where a series of the result comes from: the loop run to its end
    for some node, clock reading and random offset. *)
Definition seriesOfLoop (random : nat -> Q) (getHours : Z -> Z)
    (horizon : Z) (series : NodeForecast.t) : Prop :=
  exists (now : Z) (w : World) (first : ForecastPoint.t)
         (rest : list ForecastPoint.t),
    let st := forLoop random getHours (loopFuel horizon) now horizon
                      (initialLoop random w) in
    NodeForecast.forecast series = forecast st
    /\ forecast st = first :: rest
    /\ NodeForecast.node_name series = getNodeName (NodeForecast.node_id series)
    /\ NodeForecast.trend series
       = classifyTrend first (last (forecast st) first).

(** The severity a colour stands for: cyan 0, amber 1, red 2. *)
Definition colourRank (colour : string) : nat :=
  if String.eqb colour "#FF3B3B" then 2
  else if String.eqb colour "#FFB800" then 1
  else 0.

(** ** The specification's formulas, for comparison *)

(** The sub-score clamp as the specification words it (section 4.1):
    below by 0 and above by 100. *)
Definition clamp01to100 (x : Q) : Q := JS.qmax 0 (JS.qmin x 100).

(** The Scoring Engine as the specification words it (section 4.1), on
    finite readings: every sub-score clamped to [0,100], to be compared
    with [calculateStressIndex]. *)
Definition referenceStressIndex (n t a c : Q) : Z :=
  let noiseScore := clamp01to100 ((n - 40) / 60 * 100) in
  let tempScore := clamp01to100 ((t - 15) / 25 * 100) in
  let airScore := clamp01to100 (a / 150 * 100) in
  let crowdScore := clamp01to100 (c / 30 * 100) in
  Z.max 0 (JS.qround (0.40 * noiseScore + 0.25 * tempScore
                      + 0.20 * airScore + 0.15 * crowdScore)).

(** The severity tier as the specification words it (section 4.2), with
    cut points 75 and 50, to be compared with [getStressLabel] and
    [generateActivityLog]. *)
Definition severityTier (stressIndex : Q) : EventType :=
  if Qle_bool 75 stressIndex then Critical
  else if Qle_bool 50 stressIndex then Elevated
  else Normal.

(** The tier shown by a label of [getStressLabel]. *)
Definition tierLabel (t : EventType) : string :=
  match t with
  | Critical => "CRITICAL ANOMALY"
  | Elevated => "ELEVATED STRESS"
  | Normal => "NOMINAL PULSE"
  end.

(** ** Back end: the fallback anomaly detector on any reading *)

(** The detector of the previous part takes a reading whose five fields
    are numbers.  The code itself compares whatever it finds: a field
    may be missing or NaN, and then every comparison with it is false.
    [Raw] models that; [rawReading] and [rawDetection] embed the numeric
    readings and results. *)

(** [a <= b] on numbers: false as soon as one side is NaN. *)
Definition numLe (a b : JS.num) : bool :=
  match a, b with
  | JS.Fin x, JS.Fin y => Qle_bool x y
  | _, _ => false
  end.

Module Raw.

Module Reading.
Record t : Type := mk {
  noise : JS.value;
  temperature : JS.value;
  air_quality : JS.value;
  crowd_density : JS.value;
  stress_index : JS.value
}.
End Reading.

Module Detection.
Record t : Type := mk {
  is_anomaly : bool;
  anomaly_score : option JS.num;
  signals : option (list string);
  explanation : option string
}.
End Detection.

Section Detector.

Variable toString : JS.value -> string.

Definition fallbackAnomalyDetection (reading : Reading.t) : Detection.t :=
  let signals : list string := [] in
  let explanation := "" in
  let signals :=
    if JS.gt (JS.toNumber (Reading.noise reading)) (JS.Fin 85)
    then push signals "noise" else signals in
  let signals :=
    if JS.gt (JS.toNumber (Reading.temperature reading)) (JS.Fin 35)
    then push signals "heat" else signals in
  let signals :=
    if JS.gt (JS.toNumber (Reading.air_quality reading)) (JS.Fin 120)
    then push signals "air_quality" else signals in
  let signals :=
    if JS.gt (JS.toNumber (Reading.crowd_density reading)) (JS.Fin 25)
    then push signals "crowd" else signals in
  if Nat.eqb (List.length signals) 0
     && numLe (JS.toNumber (Reading.stress_index reading)) (JS.Fin 80)
  then Detection.mk false None None None
  else
    let '(explanation, signals) :=
      if includes signals "noise" then
        (("Noise level " ++ toString (Reading.noise reading)
            ++ " dB exceeds Mohali evening baseline")%string, signals)
      else if includes signals "heat" then
        (("Temperature " ++ toString (Reading.temperature reading)
            ++ "C indicates heat stress")%string, signals)
      else if includes signals "air_quality" then
        (("AQI " ++ toString (Reading.air_quality reading)
            ++ " above safe threshold")%string, signals)
      else if JS.gt (JS.toNumber (Reading.stress_index reading)) (JS.Fin 80) then
        ("Multi-sensor correlation indicates urban stress anomaly",
         push signals "composite")
      else (explanation, signals) in
    {| Detection.is_anomaly :=
         JS.gt (JS.toNumber (Reading.stress_index reading)) (JS.Fin 80)
         || Nat.ltb 0 (List.length signals);
       Detection.anomaly_score :=
         Some (JS.min (JS.div (JS.toNumber (Reading.stress_index reading))
                              (JS.Fin 100))
                      (JS.Fin 0.99));
       Detection.signals := Some signals;
       Detection.explanation := Some explanation |}.

End Detector.

(** The tags of a result, the empty array when the field is absent. *)
Definition signalTags (d : Detection.t) : list string :=
  match Detection.signals d with
  | Some l => l
  | None => []
  end.

End Raw.

Definition rawReading (r : Reading.t) : Raw.Reading.t :=
  {| Raw.Reading.noise := JS.Number (JS.Fin (Reading.noise r));
     Raw.Reading.temperature := JS.Number (JS.Fin (Reading.temperature r));
     Raw.Reading.air_quality := JS.Number (JS.Fin (Reading.air_quality r));
     Raw.Reading.crowd_density := JS.Number (JS.Fin (Reading.crowd_density r));
     Raw.Reading.stress_index := JS.Number (JS.Fin (Reading.stress_index r)) |}.

Definition rawDetection (d : Detection.t) : Raw.Detection.t :=
  {| Raw.Detection.is_anomaly := Detection.is_anomaly d;
     Raw.Detection.anomaly_score := option_map JS.Fin (Detection.anomaly_score d);
     Raw.Detection.signals := Detection.signals d;
     Raw.Detection.explanation := Detection.explanation d |}.

(** ** Front end: the scoring engine with the rounding of the machine *)

(** The scoring of the first part computes on exact rationals.  The
    code computes in binary64: the result of every operation, and
    every literal that is no integer, is rounded to a number the
    machine stores.  [fl] is that rounding; [Math.min], [Math.max] and
    [Math.round] are exact. *)
Section Rounded.

Variable fl : Q -> Q.

Definition calculateStressIndexFl (n t a c : Q) : Z :=
  let nScore := JS.qmin (fl (fl (fl (n - 40) / 60) * 100)) 100 in
  let tScore := JS.qmin (fl (fl (fl (t - 15) / 25) * 100)) 100 in
  let aScore := JS.qmin (fl (fl (a / 150) * 100)) 100 in
  let dScore := JS.qmin (fl (fl (c / 30) * 100)) 100 in
  Z.max 0
    (JS.qround
       (fl (fl (fl (fl (nScore * fl 0.4) + fl (tScore * fl 0.25))
                + fl (aScore * fl 0.2))
            + fl (dScore * fl 0.15)))).

(** The Scoring Engine as the specification words it (section 4.1),
    evaluated with the same rounding. *)
Definition referenceStressIndexFl (n t a c : Q) : Z :=
  let noiseScore := clamp01to100 (fl (fl (fl (n - 40) / 60) * 100)) in
  let tempScore := clamp01to100 (fl (fl (fl (t - 15) / 25) * 100)) in
  let airScore := clamp01to100 (fl (fl (a / 150) * 100)) in
  let crowdScore := clamp01to100 (fl (fl (c / 30) * 100)) in
  Z.max 0
    (JS.qround
       (fl (fl (fl (fl (fl 0.40 * noiseScore) + fl (fl 0.25 * tempScore))
                + fl (fl 0.20 * airScore))
            + fl (fl 0.15 * crowdScore)))).

End Rounded.

(** ** Front end: the scoring engine in binary64 *)

(** The exact value of a binary64 number; [None] for NaN and the
    infinities. *)
Definition floatQ (x : float) : option Q :=
  match Prim2SF x with
  | S754_zero _ => Some 0
  | S754_finite s m e =>
      let magnitude :=
        match e with
        | Z0 => inject_Z (Zpos m)
        | Zpos p => inject_Z (Zpos m * 2 ^ Zpos p)
        | Zneg p => Zpos m # (2 ^ p)
        end in
      Some (if s then - magnitude else magnitude)
  | _ => None
  end.

(** [Math.min] and [Math.max] on binary64 numbers. *)
Definition floatMin (x y : float) : float :=
  if PrimFloat.is_nan x || PrimFloat.is_nan y then PrimFloat.nan
  else if PrimFloat.ltb y x then y else x.
Definition floatMax (x y : float) : float :=
  if PrimFloat.is_nan x || PrimFloat.is_nan y then PrimFloat.nan
  else if PrimFloat.ltb x y then y else x.

(** [Math.max(0, Math.round(x))]: the rounding is exact on the value of
    [x]; [None] when [x] is NaN or infinite. *)
Definition floatRoundMax0 (x : float) : option Z :=
  option_map (fun q => Z.max 0 (JS.qround q)) (floatQ x).

(** The weights are no binary64 numbers: as in the code, the nearest
    ones are taken. *)
#[local] Set Warnings "-inexact-float".

(** [calculateStressIndex] with the operations of the machine. *)
Definition calculateStressIndex64 (n t a c : float) : option Z :=
  let nScore := floatMin (((n - 40) / 60) * 100) 100 in
  let tScore := floatMin (((t - 15) / 25) * 100) 100 in
  let aScore := floatMin ((a / 150) * 100) 100 in
  let dScore := floatMin ((c / 30) * 100) 100 in
  floatRoundMax0
    ((nScore * 0.4) + (tScore * 0.25) + (aScore * 0.2) + (dScore * 0.15))%float.

(** The specification's formula with the operations of the machine. *)
Definition referenceStressIndex64 (n t a c : float) : option Z :=
  let clamp x := floatMax 0 (floatMin x 100) in
  let noiseScore := clamp (((n - 40) / 60) * 100)%float in
  let tempScore := clamp (((t - 15) / 25) * 100)%float in
  let airScore := clamp ((a / 150) * 100)%float in
  let crowdScore := clamp ((c / 30) * 100)%float in
  floatRoundMax0
    ((0.40 * noiseScore) + (0.25 * tempScore) + (0.20 * airScore)
     + (0.15 * crowdScore))%float.

(** ** Front end: the anomaly alerts from the initial load on *)

(** The initial load stores the node data and the activity log; it
    neither reads nor writes [previousAnomaliesRef] and raises no
    alert, whatever the data. *)
Definition alertsAfterLoad (initialData : list NodeData.t) : AlertState :=
  mkAlertState [] [].

Definition runAppAlerts (initialData : list NodeData.t) (events : list LogEvent)
  : AlertState :=
  fold_left alertStep events (alertsAfterLoad initialData).

(** The two messages of [generateMockNodeData] for a reading that is
    not an anomaly. *)
Definition nominalExplanation : string :=
  "Sensing parameters nominal. No immediate infrastructure intervention required.".

Definition elevatedExplanation : string :=
  "Elevated activity levels. Monitoring for potential ordinance threshold breach.".

(** The confidence of a forecast point, as the specification writes
    it. *)
Definition confidenceOf (p : ForecastPoint.t) : Prop :=
  ForecastPoint.confidence p
  == JS.qmax 0.65 (0.9 - 0.003 * inject_Z (ForecastPoint.minutes_ahead p)).

(** Sample inputs of the forecast: every random draw is one half, the
    clock stands at the epoch, hours are read in UTC. *)
Definition sampleRandom (k : nat) : Q := 0.5.
Definition sampleClock (k : nat) : Z := 0.
Definition sampleHours (t : Z) : Z := ((t / 3600000) mod 24)%Z.
Definition sampleWorld : World := mkWorld 0 0.

Definition sampleResult : option ForecastResult :=
  fallbackForecast sampleRandom sampleClock sampleHours (Some "node_1") 60
                   sampleWorld.

Definition sampleSeries : NodeForecast.t :=
  match sampleResult with
  | Some (OneNode f) => f
  | _ => NodeForecast.mk "" "" [] ""
  end.

Definition samplePoint (k : nat) : ForecastPoint.t :=
  nth k (NodeForecast.forecast sampleSeries) (ForecastPoint.mk 0 0 0 0 0 0 0 0).

(** Sample data: a node reading, and twenty-five readings of one node
    numbered by their timestamps. *)
Definition sampleNode : NodeData.t :=
  mockNodeDataOf "CP-MOH-02" (76.7179, 30.7010) (finiteSensors 85 35 120 24) 25.

Definition sampleReadings : list NodeData.t :=
  map (fun k => mockNodeDataOf "CP-MOH-01" (76.6934, 30.7046)
                               (finiteSensors 70 25 75 15) (Z.of_nat k))
      (seq 0 25).

(** The weighted sum that [calculateStressIndex] rounds, when the four
    fields are finite. *)
Definition weightedSum (n t a c : Q) : Q :=
  JS.qmin ((n - 40) / 60 * 100) 100 * 0.4
  + JS.qmin ((t - 15) / 25 * 100) 100 * 0.25
  + JS.qmin (a / 150 * 100) 100 * 0.2
  + JS.qmin (c / 30 * 100) 100 * 0.15.

(** * Properties *)

(** ** Rounding, minimum and maximum *)

Lemma Qle_bool_false (x y : Q) : Qle_bool x y = false <-> y < x.
Proof.
  split; intros H.
  - apply Qnot_le_lt. intros Hle. apply Qle_bool_iff in Hle. congruence.
  - destruct (Qle_bool x y) eqn:E; [|reflexivity].
    apply Qle_bool_iff in E. lra.
Qed.

Lemma Qgtb_true (x y : Q) : Qgtb x y = true <-> y < x.
Proof.
  unfold Qgtb. rewrite negb_true_iff. apply Qle_bool_false.
Qed.

Lemma Qgtb_false (x y : Q) : Qgtb x y = false <-> x <= y.
Proof.
  unfold Qgtb. rewrite negb_false_iff. apply Qle_bool_iff.
Qed.

Ltac case_Qle x y :=
  let E := fresh "E" in
  destruct (Qle_bool x y) eqn:E;
  [apply Qle_bool_iff in E | apply Qle_bool_false in E].

Lemma qmin_le_r (x y : Q) : JS.qmin x y <= y.
Proof. unfold JS.qmin. case_Qle x y; lra. Qed.



Lemma qmax_right (x y : Q) : x <= y -> JS.qmax x y = y.
Proof. intros H. unfold JS.qmax. apply Qle_bool_iff in H. now rewrite H. Qed.

Lemma qmax_ge_l (x y : Q) : x <= JS.qmax x y.
Proof. unfold JS.qmax. case_Qle x y; lra. Qed.

Lemma qmax_ge_r (x y : Q) : y <= JS.qmax x y.
Proof. unfold JS.qmax. case_Qle x y; lra. Qed.

Lemma qmax_mono_r (a x y : Q) : x <= y -> JS.qmax a x <= JS.qmax a y.
Proof. intros H. unfold JS.qmax. case_Qle a x; case_Qle a y; lra. Qed.

Lemma qround_upper (x : Q) : inject_Z (JS.qround x) <= x + 0.5.
Proof.
  unfold JS.qround. pose proof (Qfloor_le (x + (1 # 2))) as H. lra.
Qed.

Lemma qround_lower (x : Q) : x - 0.5 < inject_Z (JS.qround x).
Proof.
  unfold JS.qround.
  pose proof (Qlt_floor (x + (1 # 2))) as H.
  rewrite inject_Z_plus in H. change (inject_Z 1) with 1 in H. lra.
Qed.

Lemma qround_mono (x y : Q) : x <= y -> (JS.qround x <= JS.qround y)%Z.
Proof. intros H. unfold JS.qround. apply Qfloor_resp_le. lra. Qed.

Lemma qround_comp (x y : Q) : x == y -> JS.qround x = JS.qround y.
Proof. intros H. unfold JS.qround. apply Qfloor_comp. now rewrite H. Qed.

(** Rounding never crosses an integer bound. *)
Lemma qround_le_Z (x : Q) (z : Z) : x <= inject_Z z -> (JS.qround x <= z)%Z.
Proof.
  intros H. pose proof (qround_lower x) as L.
  assert (inject_Z (JS.qround x) < inject_Z (z + 1)) as Hlt.
  { rewrite inject_Z_plus. change (inject_Z 1) with 1.
    pose proof (qround_upper x). lra. }
  rewrite <- Zlt_Qlt in Hlt. lia.
Qed.

Lemma qround_ge_Z (x : Q) (z : Z) : inject_Z z <= x -> (z <= JS.qround x)%Z.
Proof.
  intros H. pose proof (qround_lower x) as L.
  assert (inject_Z z < inject_Z (JS.qround x + 1)) as Hlt.
  { rewrite inject_Z_plus. change (inject_Z 1) with 1. lra. }
  rewrite <- Zlt_Qlt in Hlt. lia.
Qed.

Lemma qmax0_inject (z : Z) : JS.qmax 0 (inject_Z z) = inject_Z (Z.max 0 z).
Proof.
  unfold JS.qmax. case_Qle 0 (inject_Z z).
  - change 0 with (inject_Z 0) in E. rewrite <- Zle_Qle in E.
    now rewrite Z.max_r.
  - change 0 with (inject_Z 0) in E. rewrite <- Zlt_Qlt in E.
    rewrite Z.max_l by lia. reflexivity.
Qed.

(** ** The scoring engine *)

Lemma calculateStressIndex_finite (n t a c : Q) :
  calculateStressIndex (finiteSensors n t a c)
  = JS.Fin (inject_Z (Z.max 0 (JS.qround (weightedSum n t a c)))).
Proof.
  unfold calculateStressIndex, nScore, tScore, aScore, dScore, finiteSensors.
  cbn [noise temp airQuality crowd JS.toNumber JS.sub JS.div JS.mul JS.min
       JS.add JS.round JS.max JS.lift2 weights.noise weights.temp weights.air
       weights.crowd].
  rewrite qmax0_inject. reflexivity.
Qed.

Lemma weightedSum_le_100 (n t a c : Q) : weightedSum n t a c <= 100.
Proof.
  unfold weightedSum.
  pose proof (qmin_le_r ((n - 40) / 60 * 100) 100).
  pose proof (qmin_le_r ((t - 15) / 25 * 100) 100).
  pose proof (qmin_le_r (a / 150 * 100) 100).
  pose proof (qmin_le_r (c / 30 * 100) 100).
  lra.
Qed.

(** C5: whatever the four finite sensor values are, also below the
    normalisation baselines, [calculateStressIndex] returns an integer
    between 0 and 100. *)
Theorem stressIndex_in_range (n t a c : Q) :
  exists z : Z,
    calculateStressIndex (finiteSensors n t a c) = JS.Fin (inject_Z z)
    /\ (0 <= z <= 100)%Z.
Proof.
  exists (Z.max 0 (JS.qround (weightedSum n t a c))). split.
  - apply calculateStressIndex_finite.
  - split; [apply Z.le_max_l|].
    apply Z.max_lub; [lia|].
    apply qround_le_Z. apply (weightedSum_le_100 n t a c).
Qed.

Example stressIndex_below_baselines :
  calculateStressIndex (finiteSensors (-500) (-40) (-10) (-3)) = JS.Fin 0.
Proof. vm_compute. reflexivity. Qed.

Example stressIndex_saturated :
  calculateStressIndex (finiteSensors 1000 1000 1000 1000) = JS.Fin 100.
Proof. vm_compute. reflexivity. Qed.

(** The lower clamp of the specification is the identity on a
    non-negative sub-score. *)
Lemma clamp01to100_nonneg (x : Q) : 0 <= x -> clamp01to100 x = JS.qmin x 100.
Proof.
  intros H. unfold clamp01to100. apply qmax_right.
  unfold JS.qmin. case_Qle x 100; lra.
Qed.

Lemma clamp01to100_ge (x : Q) : JS.qmin x 100 <= clamp01to100 x.
Proof. unfold clamp01to100. apply qmax_ge_r. Qed.

Section RoundedScoring.

Variable fl : Q -> Q.

(** Rounding keeps the order and stores 0 as 0. *)
Hypothesis fl_monotone : forall x y, x <= y -> fl x <= fl y.
Hypothesis fl_zero : fl 0 == 0.

#[local] Instance fl_compat : Proper (Qeq ==> Qeq) fl.
Proof.
  intros x y H. apply Qle_antisym; apply fl_monotone; rewrite H; apply Qle_refl.
Qed.

Lemma fl_nonneg (x : Q) : 0 <= x -> 0 <= fl x.
Proof. intros H. rewrite <- fl_zero. now apply fl_monotone. Qed.

Lemma subScoreFl_nonneg (x b d : Q) :
  b <= x -> 0 < d -> 0 <= fl (fl (fl (x - b) / d) * 100).
Proof.
  intros Hx Hd. apply fl_nonneg.
  apply Qmult_le_0_compat; [|lra].
  apply fl_nonneg. apply Qle_shift_div_l; [exact Hd|].
  rewrite Qmult_0_l. apply fl_nonneg. lra.
Qed.

Lemma ratioScoreFl_nonneg (x d : Q) :
  0 <= x -> 0 < d -> 0 <= fl (fl (x / d) * 100).
Proof.
  intros Hx Hd. apply fl_nonneg.
  apply Qmult_le_0_compat; [|lra].
  apply fl_nonneg. apply Qle_shift_div_l; [exact Hd|].
  now rewrite Qmult_0_l.
Qed.

(** C3, as the code has it: the sub-scores are clamped above at 100
    only, and the rounded sum alone is clamped below at 0.  On a
    reading at or above the four baselines (noise 40, temperature 15,
    air quality 0, crowd 0) the lower clamp of the specification is
    the identity, and [calculateStressIndex] equals the specification's
    formula evaluated in the same arithmetic, whatever the rounding of
    that arithmetic is, as long as it keeps the order and stores 0 as
    0 (binary64 does, and so does computing exactly). *)
Theorem stressIndex_matches_reference_rounded (n t a c : Q) :
  40 <= n -> 15 <= t -> 0 <= a -> 0 <= c ->
  calculateStressIndexFl fl n t a c = referenceStressIndexFl fl n t a c.
Proof.
  intros Hn Ht Ha Hc.
  unfold calculateStressIndexFl, referenceStressIndexFl.
  rewrite (clamp01to100_nonneg _ (subScoreFl_nonneg n 40 60 Hn eq_refl)).
  rewrite (clamp01to100_nonneg _ (subScoreFl_nonneg t 15 25 Ht eq_refl)).
  rewrite (clamp01to100_nonneg _ (ratioScoreFl_nonneg a 150 Ha eq_refl)).
  rewrite (clamp01to100_nonneg _ (ratioScoreFl_nonneg c 30 Hc eq_refl)).
  f_equal. apply qround_comp.
  assert (fl 0.40 == fl 0.4) as E1 by (apply fl_compat; reflexivity).
  assert (fl 0.20 == fl 0.2) as E2 by (apply fl_compat; reflexivity).
  rewrite E1, E2.
  rewrite (Qmult_comm (fl 0.4)), (Qmult_comm (fl 0.25)),
    (Qmult_comm (fl 0.2)), (Qmult_comm (fl 0.15)).
  reflexivity.
Qed.

End RoundedScoring.

(** Computing exactly is one such arithmetic, and then the rounded
    scoring is the scoring of the first part. *)
Lemma calculateStressIndexFl_exact (n t a c : Q) :
  calculateStressIndex (finiteSensors n t a c)
  = JS.Fin (inject_Z (calculateStressIndexFl (fun x => x) n t a c)).
Proof.
  rewrite calculateStressIndex_finite. reflexivity.
Qed.

(** C3, the claim as stated fails: at 5 degrees the temperature
    sub-score is -40, not 0, and the index is 45 where the
    specification's formula gives 55. *)
Lemma stressIndex_differs_from_reference :
  calculateStressIndex (finiteSensors 70 5 150 30) = JS.Fin 45
  /\ referenceStressIndex 70 5 150 30 = 55%Z
  /\ calculateStressIndex (finiteSensors 70 5 150 30)
     <> JS.Fin (inject_Z (referenceStressIndex 70 5 150 30)).
Proof.
  repeat split; try (vm_compute; reflexivity).
  vm_compute. discriminate.
Qed.

Lemma stressIndex_matches_reference_rounded_witness :
  calculateStressIndexFl (fun x => x) 40 15 0 5
  = referenceStressIndexFl (fun x => x) 40 15 0 5.
Proof.
  apply (stressIndex_matches_reference_rounded (fun x => x)).
  - intros x y H. exact H.
  - reflexivity.
  - unfold Qle. simpl. lia.
  - unfold Qle. simpl. lia.
  - unfold Qle. simpl. lia.
  - unfold Qle. simpl. lia.
Defined.

(** In binary64 the code and the specification's formula agree on the
    readings at or above the baselines where rounding matters: the sum
    at [{40, 15, 0, 5}] is 2.4999999999999996 and rounds to 2, where
    computing exactly gives 2.5 and 3. *)
Example binary64_agrees_above_baselines :
  calculateStressIndex64 40 15 0 5 = Some 2%Z
  /\ referenceStressIndex64 40 15 0 5 = Some 2%Z
  /\ calculateStressIndex64 60 34 20 29 = Some 49%Z
  /\ referenceStressIndex64 60 34 20 29 = Some 49%Z
  /\ calculateStressIndex64 60 34 95 21 = Some 55%Z
  /\ referenceStressIndex64 60 34 95 21 = Some 55%Z
  /\ calculateStressIndexFl (fun x => x) 40 15 0 5 = 3%Z.
Proof. repeat split; vm_compute; reflexivity. Qed.

(** Below a baseline they differ in binary64 as they do computing
    exactly. *)
Example binary64_differs_below_baseline :
  calculateStressIndex64 70 5 150 30 = Some 45%Z
  /\ referenceStressIndex64 70 5 150 30 = Some 55%Z.
Proof. split; vm_compute; reflexivity. Qed.

(** Arithmetic on NaN. *)
Lemma lift2_NaN_l (f : Q -> Q -> Q) (b : JS.num) : JS.lift2 f JS.NaN b = JS.NaN.
Proof. reflexivity. Qed.

Lemma lift2_NaN_r (f : Q -> Q -> Q) (a : JS.num) : JS.lift2 f a JS.NaN = JS.NaN.
Proof. destruct a; reflexivity. Qed.

(** C6, as the code has it: on a reading with a missing or NaN field
    [calculateStressIndex] raises nothing; the call returns NaN. *)
Theorem malformed_reading_scores_NaN (s : SensorData) :
  malformed s -> callCalculateStressIndex s = Returned JS.NaN.
Proof.
  unfold malformed, malformedField, callCalculateStressIndex.
  intros H. f_equal.
  unfold calculateStressIndex, nScore, tScore, aScore, dScore,
    JS.add, JS.sub, JS.mul, JS.div, JS.min, JS.max.
  destruct H as [H | [H | [H | H]]]; rewrite H; cbn [JS.lift2 JS.round];
    repeat (rewrite ?lift2_NaN_l, ?lift2_NaN_r; cbn [JS.round]); reflexivity.
Qed.

Lemma malformed_reading_scores_NaN_witness :
  callCalculateStressIndex
    (mkSensorData JS.Undefined (JS.Number (JS.Fin 20)) (JS.Number (JS.Fin 50))
                  (JS.Number JS.NaN))
  = Returned JS.NaN.
Proof.
  apply malformed_reading_scores_NaN. left. reflexivity.
Defined.

(** C6, the claim as stated fails: a reading without its noise field
    is scored NaN, no InvalidInput is raised. *)
Lemma malformed_reading_not_rejected :
  let s := mkSensorData JS.Undefined (JS.Number (JS.Fin 20))
                        (JS.Number (JS.Fin 50)) (JS.Number (JS.Fin 5)) in
  malformed s
  /\ callCalculateStressIndex s = Returned JS.NaN
  /\ forall kind, callCalculateStressIndex s <> Thrown kind.
Proof.
  cbv zeta. split; [left; reflexivity|]. split; [reflexivity|].
  intros kind. discriminate.
Qed.

(** ** The classifier *)

Section DetectorFacts.

Variable toString : Q -> string.

(** The four threshold tests decide the whole result. *)
Ltac split_thresholds reading :=
  unfold fallbackAnomalyDetection, signalTags, push;
  destruct (Qgtb (Reading.noise reading) 85) eqn:Enoise;
  destruct (Qgtb (Reading.temperature reading) 35) eqn:Eheat;
  destruct (Qgtb (Reading.air_quality reading) 120) eqn:Eair;
  destruct (Qgtb (Reading.crowd_density reading) 25) eqn:Ecrowd;
  destruct (Qle_bool (Reading.stress_index reading) 80) eqn:Estress;
  unfold Qgtb in *; rewrite ?Estress; cbn.

Lemma detection_flag (reading : Reading.t) :
  Detection.is_anomaly (fallbackAnomalyDetection toString reading)
  = Qgtb (Reading.stress_index reading) 80
    || negb (Nat.eqb (List.length (signalTags (fallbackAnomalyDetection toString reading))) 0).
Proof. split_thresholds reading; reflexivity. Qed.

Lemma detection_not_anomalous (reading : Reading.t) :
  Detection.is_anomaly (fallbackAnomalyDetection toString reading) = false ->
  fallbackAnomalyDetection toString reading = Detection.mk false None None None.
Proof. split_thresholds reading; intros H; try reflexivity; discriminate H. Qed.

(** When "composite" is pushed: the stress index exceeds 80 and none of
    noise, heat, air quality fired; the crowd test is not consulted. *)
Lemma composite_pushed (reading : Reading.t) :
  includes (signalTags (fallbackAnomalyDetection toString reading)) "composite"
  = Qgtb (Reading.stress_index reading) 80
    && negb (Qgtb (Reading.noise reading) 85)
    && negb (Qgtb (Reading.temperature reading) 35)
    && negb (Qgtb (Reading.air_quality reading) 120).
Proof. split_thresholds reading; reflexivity. Qed.

End DetectorFacts.

Lemma mock_flag (nodeId : string) (coordinates : Q * Q) (sensors : SensorData)
    (now : Z) :
  let d := mockNodeDataOf nodeId coordinates sensors now in
  NodeData.isAnomaly d = JS.gt (NodeData.stressIndex d) (JS.Fin 80)
  /\ (NodeData.isAnomaly d = false ->
      (JS.gt (NodeData.stressIndex d) (JS.Fin 55) = false
       /\ NodeData.aiExplanation d = nominalExplanation)
      \/ (JS.gt (NodeData.stressIndex d) (JS.Fin 55) = true
          /\ NodeData.aiExplanation d = elevatedExplanation)).
Proof.
  unfold mockNodeDataOf. cbn [NodeData.isAnomaly NodeData.stressIndex
                               NodeData.aiExplanation].
  split; [reflexivity|].
  intros H. rewrite H.
  destruct (JS.gt (calculateStressIndex sensors) (JS.Fin 55)); auto.
Qed.

(** The detector on any reading: the four threshold tests and the
    stress index, a number or NaN, decide the whole result. *)
Ltac raw_cases reading :=
  unfold Raw.fallbackAnomalyDetection, Raw.signalTags, push;
  destruct (JS.gt (JS.toNumber (Raw.Reading.noise reading)) (JS.Fin 85))
    eqn:Enoise;
  destruct (JS.gt (JS.toNumber (Raw.Reading.temperature reading)) (JS.Fin 35))
    eqn:Eheat;
  destruct (JS.gt (JS.toNumber (Raw.Reading.air_quality reading)) (JS.Fin 120))
    eqn:Eair;
  destruct (JS.gt (JS.toNumber (Raw.Reading.crowd_density reading)) (JS.Fin 25))
    eqn:Ecrowd;
  destruct (JS.toNumber (Raw.Reading.stress_index reading)) as [stress|]
    eqn:Estress;
  unfold JS.gt, numLe, JS.min, JS.div, JS.lift2;
  try match goal with
      | |- context [Qle_bool ?x 80] => destruct (Qle_bool x 80) eqn:Ele
      end;
  cbn.

Section RawDetectorFacts.

Variable toString : JS.value -> string.

Lemma raw_detection_flag (reading : Raw.Reading.t) :
  Raw.Detection.is_anomaly (Raw.fallbackAnomalyDetection toString reading)
  = JS.gt (JS.toNumber (Raw.Reading.stress_index reading)) (JS.Fin 80)
    || negb (Nat.eqb (List.length
                        (Raw.signalTags
                           (Raw.fallbackAnomalyDetection toString reading))) 0).
Proof. raw_cases reading; reflexivity. Qed.

Lemma raw_detection_not_anomalous (reading : Raw.Reading.t) :
  Raw.Detection.is_anomaly (Raw.fallbackAnomalyDetection toString reading) = false ->
  Raw.signalTags (Raw.fallbackAnomalyDetection toString reading) = []
  /\ (JS.toNumber (Raw.Reading.stress_index reading) <> JS.NaN ->
      Raw.fallbackAnomalyDetection toString reading
      = Raw.Detection.mk false None None None)
  /\ (JS.toNumber (Raw.Reading.stress_index reading) = JS.NaN ->
      Raw.fallbackAnomalyDetection toString reading
      = Raw.Detection.mk false (Some JS.NaN) (Some []) (Some "")).
Proof.
  raw_cases reading; intros H; try discriminate H;
    (split; [reflexivity|]); split; intros H';
    try reflexivity; try discriminate H'; exfalso; apply H'; reflexivity.
Qed.

(** When "composite" is pushed: the stress index exceeds 80 and none of
    noise, heat, air quality fired; the crowd test is not consulted. *)
Lemma raw_composite_pushed (reading : Raw.Reading.t) :
  includes (Raw.signalTags (Raw.fallbackAnomalyDetection toString reading))
           "composite"
  = JS.gt (JS.toNumber (Raw.Reading.stress_index reading)) (JS.Fin 80)
    && negb (JS.gt (JS.toNumber (Raw.Reading.noise reading)) (JS.Fin 85))
    && negb (JS.gt (JS.toNumber (Raw.Reading.temperature reading)) (JS.Fin 35))
    && negb (JS.gt (JS.toNumber (Raw.Reading.air_quality reading)) (JS.Fin 120)).
Proof. raw_cases reading; reflexivity. Qed.

Lemma raw_crowd_only_signals (reading : Raw.Reading.t) :
  JS.gt (JS.toNumber (Raw.Reading.crowd_density reading)) (JS.Fin 25) = true ->
  JS.gt (JS.toNumber (Raw.Reading.noise reading)) (JS.Fin 85) = false ->
  JS.gt (JS.toNumber (Raw.Reading.temperature reading)) (JS.Fin 35) = false ->
  JS.gt (JS.toNumber (Raw.Reading.air_quality reading)) (JS.Fin 120) = false ->
  Raw.Detection.signals (Raw.fallbackAnomalyDetection toString reading)
  = Some (if JS.gt (JS.toNumber (Raw.Reading.stress_index reading)) (JS.Fin 80)
          then ["crowd"; "composite"] else ["crowd"]).
Proof.
  intros Hc Hn Ht Ha.
  unfold Raw.fallbackAnomalyDetection, push. rewrite Hc, Hn, Ht, Ha. cbn.
  destruct (JS.gt (JS.toNumber (Raw.Reading.stress_index reading)) (JS.Fin 80));
    reflexivity.
Qed.

(** On a reading whose fields are numbers the detector on any reading
    is the detector of the first part. *)
Lemma raw_detection_numeric (reading : Reading.t) :
  Raw.fallbackAnomalyDetection toString (rawReading reading)
  = rawDetection
      (fallbackAnomalyDetection (fun q => toString (JS.Number (JS.Fin q))) reading).
Proof.
  unfold Raw.fallbackAnomalyDetection, fallbackAnomalyDetection, rawReading,
    rawDetection, push, Qgtb, numLe, JS.gt.
  cbn [Raw.Reading.noise Raw.Reading.temperature Raw.Reading.air_quality
       Raw.Reading.crowd_density Raw.Reading.stress_index JS.toNumber].
  destruct (Qle_bool (Reading.noise reading) 85);
    destruct (Qle_bool (Reading.temperature reading) 35);
    destruct (Qle_bool (Reading.air_quality reading) 120);
    destruct (Qle_bool (Reading.crowd_density reading) 25);
    destruct (Qle_bool (Reading.stress_index reading) 80); reflexivity.
Qed.

End RawDetectorFacts.

(** C1, as the code has it.  For every reading handed to the back-end
    detector, with fields that are numbers, NaN or missing,
    [is_anomaly] is [stress_index > 80] or a non-empty signals array,
    and a result that is not anomalous has no signal.  Such a result
    is the object with the single field [is_anomaly: false], without
    signals and without explanation, when [stress_index] is a number;
    when [stress_index] is missing or NaN the early return is not taken
    and the result has the four fields, with score NaN, the empty
    array and the empty string.  The front-end generator computes no
    signals: its [isAnomaly] is [stressIndex > 80] alone, and when it
    is false an explanation is still produced, the nominal message up
    to 55 and the elevated-activity message above. *)
Theorem anomaly_flag_on_every_reading :
  (forall (toString : JS.value -> string) (reading : Raw.Reading.t),
      let res := Raw.fallbackAnomalyDetection toString reading in
      let stress := JS.toNumber (Raw.Reading.stress_index reading) in
      Raw.Detection.is_anomaly res
      = JS.gt stress (JS.Fin 80)
        || negb (Nat.eqb (List.length (Raw.signalTags res)) 0)
      /\ (Raw.Detection.is_anomaly res = false ->
          Raw.signalTags res = []
          /\ (stress <> JS.NaN -> res = Raw.Detection.mk false None None None)
          /\ (stress = JS.NaN ->
              res = Raw.Detection.mk false (Some JS.NaN) (Some []) (Some ""))))
  /\ (forall (nodeId : string) (coordinates : Q * Q) (r1 r2 r3 r4 : Q) (now : Z),
      let d := generateMockNodeData nodeId coordinates r1 r2 r3 r4 now in
      NodeData.isAnomaly d = JS.gt (NodeData.stressIndex d) (JS.Fin 80)
      /\ (NodeData.isAnomaly d = false ->
          (JS.gt (NodeData.stressIndex d) (JS.Fin 55) = false
           /\ NodeData.aiExplanation d = nominalExplanation)
          \/ (JS.gt (NodeData.stressIndex d) (JS.Fin 55) = true
              /\ NodeData.aiExplanation d = elevatedExplanation))).
Proof.
  split.
  - intros toString reading res stress. split.
    + apply raw_detection_flag.
    + apply raw_detection_not_anomalous.
  - intros nodeId coordinates r1 r2 r3 r4 now.
    apply (mock_flag nodeId coordinates (mockSensors r1 r2 r3 r4) now).
Qed.

Lemma anomaly_flag_on_every_reading_witness :
  Raw.fallbackAnomalyDetection
    (fun _ => "")
    (Raw.Reading.mk (JS.Number (JS.Fin 50)) (JS.Number (JS.Fin 20))
                    (JS.Number (JS.Fin 50)) (JS.Number (JS.Fin 5)) JS.Undefined)
  = Raw.Detection.mk false (Some JS.NaN) (Some []) (Some "").
Proof.
  apply (proj1 anomaly_flag_on_every_reading (fun _ => "")
           (Raw.Reading.mk (JS.Number (JS.Fin 50)) (JS.Number (JS.Fin 20))
                           (JS.Number (JS.Fin 50)) (JS.Number (JS.Fin 5))
                           JS.Undefined)).
  - reflexivity.
  - reflexivity.
Defined.

(** The two shapes of a result that is not anomalous. *)
Example not_anomalous_results :
  Raw.fallbackAnomalyDetection
    (fun _ => "")
    (Raw.Reading.mk (JS.Number (JS.Fin 50)) (JS.Number (JS.Fin 20))
                    (JS.Number (JS.Fin 50)) (JS.Number (JS.Fin 5))
                    (JS.Number (JS.Fin 30)))
  = Raw.Detection.mk false None None None
  /\ Raw.fallbackAnomalyDetection
       (fun _ => "")
       (Raw.Reading.mk (JS.Number (JS.Fin 50)) (JS.Number (JS.Fin 20))
                       (JS.Number (JS.Fin 50)) (JS.Number (JS.Fin 5))
                       (JS.Number JS.NaN))
     = Raw.Detection.mk false (Some JS.NaN) (Some []) (Some "").
Proof. split; reflexivity. Qed.

(** C1, the claim as stated fails on the front end: the quietest mock
    reading is not an anomaly and yet carries an explanation string. *)
Lemma mock_explains_without_anomaly :
  let d := generateMockNodeData "CP-MOH-01" (76.6934, 30.7046) 0 0 0 0 0 in
  NodeData.stressIndex d = JS.Fin 7
  /\ NodeData.isAnomaly d = false
  /\ NodeData.aiExplanation d = nominalExplanation
  /\ NodeData.aiExplanation d <> "".
Proof.
  cbv zeta. repeat split; try (vm_compute; reflexivity).
  vm_compute. discriminate.
Qed.

(** C2, as the code has it.  For every reading, "composite" is among
    the signals if and only if the stress index is above 80 and none
    of the noise, heat and air-quality thresholds fired; the crowd
    threshold is not consulted.  So a reading whose only fired
    threshold is crowd gets the signals crowd, composite when its
    stress index is above 80, and crowd alone otherwise. *)
Theorem composite_tag_characterised (toString : JS.value -> string)
    (reading : Raw.Reading.t) :
  let res := Raw.fallbackAnomalyDetection toString reading in
  let fired field limit := JS.gt (JS.toNumber field) (JS.Fin limit) in
  (includes (Raw.signalTags res) "composite" = true
   <-> fired (Raw.Reading.stress_index reading) 80 = true
       /\ fired (Raw.Reading.noise reading) 85 = false
       /\ fired (Raw.Reading.temperature reading) 35 = false
       /\ fired (Raw.Reading.air_quality reading) 120 = false)
  /\ (fired (Raw.Reading.crowd_density reading) 25 = true ->
      fired (Raw.Reading.noise reading) 85 = false ->
      fired (Raw.Reading.temperature reading) 35 = false ->
      fired (Raw.Reading.air_quality reading) 120 = false ->
      Raw.Detection.signals res
      = Some (if fired (Raw.Reading.stress_index reading) 80
              then ["crowd"; "composite"] else ["crowd"])).
Proof.
  cbv zeta. split.
  - rewrite raw_composite_pushed.
    destruct (JS.gt (JS.toNumber (Raw.Reading.stress_index reading)) (JS.Fin 80));
      destruct (JS.gt (JS.toNumber (Raw.Reading.noise reading)) (JS.Fin 85));
      destruct (JS.gt (JS.toNumber (Raw.Reading.temperature reading)) (JS.Fin 35));
      destruct (JS.gt (JS.toNumber (Raw.Reading.air_quality reading)) (JS.Fin 120));
      cbn; split; intros H; try discriminate H; try reflexivity;
      try (repeat split; reflexivity);
      destruct H as (H1 & H2 & H3 & H4); discriminate.
  - apply raw_crowd_only_signals.
Qed.

Lemma composite_tag_characterised_witness :
  Raw.Detection.signals
    (Raw.fallbackAnomalyDetection (fun _ => "")
       (rawReading (Reading.mk 60 25 80 28 55)))
  = Some ["crowd"].
Proof.
  apply (composite_tag_characterised (fun _ => "")
           (rawReading (Reading.mk 60 25 80 28 55)));
    reflexivity.
Defined.

(** C2, the claim as stated fails: in this reading only the crowd
    threshold fires, the stress index is 81, and "composite" is among
    the signals. *)
Lemma crowd_only_reading_tagged_composite :
  let reading := rawReading (Reading.mk 85 35 120 30 81) in
  let res := Raw.fallbackAnomalyDetection (fun _ => "") reading in
  JS.gt (JS.toNumber (Raw.Reading.crowd_density reading)) (JS.Fin 25) = true
  /\ JS.gt (JS.toNumber (Raw.Reading.noise reading)) (JS.Fin 85) = false
  /\ JS.gt (JS.toNumber (Raw.Reading.temperature reading)) (JS.Fin 35) = false
  /\ JS.gt (JS.toNumber (Raw.Reading.air_quality reading)) (JS.Fin 120) = false
  /\ Raw.Detection.signals res = Some ["crowd"; "composite"]
  /\ includes (Raw.signalTags res) "composite" = true.
Proof. cbv zeta. repeat split; reflexivity. Qed.

(** The front-end scoring gives that reading the stress index 81. *)
Example crowd_reading_stress :
  calculateStressIndex (finiteSensors 85 35 120 30) = JS.Fin 81.
Proof. vm_compute. reflexivity. Qed.

(** C10: when only the crowd threshold fires and the stress index is at
    most 80, the detector reports an anomaly with the signals
    ["crowd"] and the empty string as explanation. *)
Theorem crowd_only_anomaly_unexplained (toString : Q -> string)
    (reading : Reading.t) :
  25 < Reading.crowd_density reading ->
  Reading.noise reading <= 85 ->
  Reading.temperature reading <= 35 ->
  Reading.air_quality reading <= 120 ->
  Reading.stress_index reading <= 80 ->
  let res := fallbackAnomalyDetection toString reading in
  Detection.is_anomaly res = true
  /\ Detection.signals res = Some ["crowd"]
  /\ Detection.explanation res = Some "".
Proof.
  intros Hc Hn Ht Ha Hs.
  apply Qgtb_true in Hc. apply Qgtb_false in Hn, Ht, Ha, Hs.
  unfold fallbackAnomalyDetection, push.
  rewrite Hc, Hn, Ht, Ha, Hs. cbn. auto.
Qed.

Lemma crowd_only_anomaly_unexplained_witness :
  let res := fallbackAnomalyDetection (fun _ => "") (Reading.mk 60 25 80 28 55) in
  Detection.is_anomaly res = true
  /\ Detection.signals res = Some ["crowd"]
  /\ Detection.explanation res = Some "".
Proof.
  apply (crowd_only_anomaly_unexplained (fun _ => "") (Reading.mk 60 25 80 28 55));
    unfold Qlt, Qle; simpl; lia.
Defined.

(** ** Severity tiers *)

Lemma getStressLabel_tier (s : Q) :
  getStressLabel (JS.Fin s) = tierLabel (severityTier s).
Proof.
  unfold getStressLabel, severityTier, JS.ge.
  destruct (Qle_bool 75 s); [reflexivity|].
  destruct (Qle_bool 50 s); reflexivity.
Qed.

Lemma activity_eventType (d : NodeData.t) (s : Q) :
  NodeData.stressIndex d = JS.Fin s ->
  ActivityLogEntry.eventType (generateActivityLog d)
  = if Qgtb s 80 then Critical else if Qgtb s 55 then Elevated else Normal.
Proof.
  intros H. unfold generateActivityLog. cbn [ActivityLogEntry.eventType].
  rewrite H. reflexivity.
Qed.

(** C4, as the code has it.  The display label follows the cut points
    75 and 50.  The activity log does not: its event type is Critical
    above 80, Elevated above 55 up to 80, Normal up to 55.  The two
    agree exactly when the stress index is below 50, strictly between
    55 and 75, or above 80. *)
Theorem severity_cut_points (d : NodeData.t) (s : Q) :
  NodeData.stressIndex d = JS.Fin s ->
  let e := ActivityLogEntry.eventType (generateActivityLog d) in
  getStressLabel (NodeData.stressIndex d) = tierLabel (severityTier s)
  /\ (severityTier s = Critical <-> 75 <= s)
  /\ (severityTier s = Elevated <-> 50 <= s /\ s < 75)
  /\ (e = Critical <-> 80 < s)
  /\ (e = Elevated <-> 55 < s /\ s <= 80)
  /\ (e = Normal <-> s <= 55)
  /\ (e = severityTier s <-> s < 50 \/ (55 < s /\ s < 75) \/ 80 < s).
Proof.
  intros H e. subst e. rewrite (activity_eventType d s H), H.
  split; [apply getStressLabel_tier|].
  unfold severityTier, Qgtb.
  case_Qle 75 s; case_Qle 50 s; case_Qle s 80; case_Qle s 55; cbn;
    repeat split; intros; try discriminate; try lra;
    try (exfalso; lra);
    repeat match goal with
           | Hx : _ /\ _ |- _ => destruct Hx
           | Hx : _ \/ _ |- _ => destruct Hx
           end; try lra; try reflexivity; auto.
Qed.

Lemma severity_cut_points_witness :
  let d := mockNodeDataOf "CP-MOH-01" (76.6934, 30.7046)
                          (finiteSensors 85 35 120 24) 0 in
  getStressLabel (NodeData.stressIndex d) = tierLabel (severityTier 78).
Proof.
  cbv zeta.
  apply (severity_cut_points
           (mockNodeDataOf "CP-MOH-01" (76.6934, 30.7046)
                           (finiteSensors 85 35 120 24) 0) 78).
  vm_compute. reflexivity.
Defined.

(** C4, the claim as stated fails: at stress index 78 the label is the
    Critical one while the activity log records Elevated. *)
Lemma activity_log_tier_differs :
  let d := mockNodeDataOf "CP-MOH-01" (76.6934, 30.7046)
                          (finiteSensors 85 35 120 24) 0 in
  NodeData.stressIndex d = JS.Fin 78
  /\ getStressLabel (NodeData.stressIndex d) = "CRITICAL ANOMALY"
  /\ severityTier 78 = Critical
  /\ ActivityLogEntry.eventType (generateActivityLog d) = Elevated
  /\ ActivityLogEntry.eventType (generateActivityLog d) <> severityTier 78.
Proof.
  cbv zeta. repeat split; try (vm_compute; reflexivity).
  vm_compute. discriminate.
Qed.

(** ** The bounded buffers *)

Lemma fold_push_map {A B : Type} (f : A -> B) (l : list A) (acc : list B) :
  fold_left (fun out x => push out (f x)) l acc = acc ++ map f l.
Proof.
  revert acc. induction l as [|x l IH]; intros acc; cbn.
  - now rewrite app_nil_r.
  - rewrite IH. unfold push. now rewrite <- app_assoc.
Qed.

Lemma sliceLast_rev {A : Type} (n : nat) (l : list A) :
  sliceLast n l = rev (firstn n (rev l)).
Proof. unfold sliceLast. rewrite firstn_rev, rev_involutive. reflexivity. Qed.

(** Slicing after each append keeps what slicing once at the end keeps. *)
Lemma sliceLast_push {A : Type} (n : nat) (l : list A) (x : A) :
  sliceLast (S n) (sliceLast (S n) l ++ [x]) = sliceLast (S n) (l ++ [x]).
Proof.
  rewrite (sliceLast_rev (S n) (l ++ [x])).
  rewrite (sliceLast_rev (S n) (sliceLast (S n) l ++ [x])).
  rewrite (sliceLast_rev (S n) l).
  rewrite !rev_app_distr, rev_involutive.
  change (rev [x]) with [x]. cbn [app].
  rewrite !firstn_cons, firstn_firstn, Nat.min_l by lia. reflexivity.
Qed.

Lemma sliceLast_length {A : Type} (n : nat) (l : list A) :
  List.length (sliceLast n l) = Nat.min (List.length l) n.
Proof. unfold sliceLast. rewrite length_skipn. lia. Qed.

Lemma sliceLast_map {A B : Type} (f : A -> B) (n : nat) (l : list A) :
  sliceLast n (map f l) = map f (sliceLast n l).
Proof. unfold sliceLast. now rewrite length_map, skipn_map. Qed.

Lemma generateHistoricalData_push (d : NodeData.t)
    (h : list HistoricalDataPoint.t) :
  generateHistoricalData d h = sliceLast 20 (h ++ [historicalPoint d]).
Proof. reflexivity. Qed.

Lemma appendHistory_sliceLast (readings : list NodeData.t) :
  appendHistory readings = sliceLast 20 (map historicalPoint readings).
Proof.
  unfold appendHistory.
  induction readings as [|d readings IH] using rev_ind.
  - reflexivity.
  - rewrite fold_left_app. cbn [fold_left].
    rewrite IH, generateHistoricalData_push, sliceLast_push, map_app.
    reflexivity.
Qed.

Lemma firstn_app_firstn_le {A : Type} (n m : nat) (a b : list A) :
  (n <= m)%nat -> firstn n (a ++ firstn m b) = firstn n (a ++ b).
Proof.
  revert n. induction a as [|x a IH]; intros n Hle; cbn.
  - rewrite firstn_firstn. now rewrite Nat.min_l.
  - destruct n as [|n]; [reflexivity|]. cbn. f_equal. apply IH. lia.
Qed.

Lemma firstn_app_firstn {A : Type} (n : nat) (a b : list A) :
  firstn n (a ++ firstn n b) = firstn n (a ++ b).
Proof. apply firstn_app_firstn_le. lia. Qed.

Lemma logStep_eventData (log : list ActivityLogEntry.t) (e : LogEvent) :
  logStep log e = firstn 50 (rev (map generateActivityLog (eventData e)) ++ log).
Proof. destruct e; reflexivity. Qed.

Lemma initialActivityLog_rev (initialData : list NodeData.t) :
  initialActivityLog initialData = rev (map generateActivityLog initialData).
Proof. unfold initialActivityLog. now rewrite fold_push_map. Qed.

Lemma runActivityLog_newest_first (initialData : list NodeData.t)
    (events : list LogEvent) :
  (List.length initialData <= 50)%nat ->
  runActivityLog initialData events
  = firstn 50 (rev (map generateActivityLog (generatedData initialData events))).
Proof.
  intros Hlen. unfold runActivityLog, generatedData.
  induction events as [|e events IH] using rev_ind.
  - cbn [fold_left flat_map]. rewrite app_nil_r, initialActivityLog_rev.
    rewrite firstn_all2; [reflexivity|].
    now rewrite length_rev, length_map.
  - rewrite fold_left_app. cbn [fold_left].
    rewrite IH, logStep_eventData, firstn_app_firstn.
    rewrite flat_map_app. cbn [flat_map]. rewrite app_nil_r.
    rewrite app_assoc, !map_app, !rev_app_distr. reflexivity.
Qed.

(** C9: the history of a node, after any sequence of readings appended
    to the empty array, holds the last min(n, 20) of them in the order
    they were appended; the activity log, after the initial load of one
    entry per sensor node and any sequence of polling ticks and crisis
    keys, holds the 50 newest entries, newest first, and never more
    than 50. *)
Theorem history_buffers_bounded :
  (forall readings : list NodeData.t,
      appendHistory readings
      = map historicalPoint (skipn (List.length readings - 20) readings)
      /\ List.length (appendHistory readings) = Nat.min (List.length readings) 20)
  /\ (forall (initialData : list NodeData.t) (events : list LogEvent),
      List.length initialData = List.length sensorNodes ->
      runActivityLog initialData events
      = firstn 50 (rev (map generateActivityLog
                            (generatedData initialData events)))
      /\ (List.length (runActivityLog initialData events) <= 50)%nat).
Proof.
  split.
  - intros readings. rewrite appendHistory_sliceLast. split.
    + apply sliceLast_map.
    + now rewrite sliceLast_length, length_map.
  - intros initialData events Hlen.
    assert (List.length initialData <= 50)%nat as Hle.
    { rewrite Hlen. cbn. lia. }
    rewrite (runActivityLog_newest_first initialData events Hle).
    split; [reflexivity|]. apply firstn_le_length.
Qed.

Lemma history_buffers_bounded_witness :
  (List.length (runActivityLog (firstn 5 sampleReadings)
                               [PollTick sampleNode sampleNode;
                                CrisisKey sampleNode 26])
   <= 50)%nat.
Proof.
  apply (proj2 history_buffers_bounded). reflexivity.
Defined.

(** After 25 appends the history holds the last 20 readings, in order. *)
Example history_after_25_appends :
  List.length (appendHistory sampleReadings) = 20%nat
  /\ map HistoricalDataPoint.timestamp (appendHistory sampleReadings)
     = map Z.of_nat (seq 5 20).
Proof. split; vm_compute; reflexivity. Qed.

(** ** The fallback forecast *)

Lemma baseFactorAt_cases (hour : Z) :
  baseFactorAt hour = 0.8 \/ baseFactorAt hour = 1.2 \/ baseFactorAt hour = 1.4.
Proof.
  unfold baseFactorAt.
  destruct ((17 <=? hour)%Z && (hour <=? 19)%Z); [auto|].
  destruct ((8 <=? hour)%Z && (hour <=? 20)%Z); auto.
Qed.

(** One step of the smoothed walk keeps the stress between 26 and 73:
    the fixed points of the drift lie between 36 and 63 and the noise
    and the rounding move the value by at most 3. *)
Lemma nextStress_bounds (hour : Z) (prev r : Q) :
  26 <= prev -> prev <= 73 -> 0 <= r -> r < 1 ->
  (26 <= nextStress hour prev r <= 73)%Z.
Proof.
  intros Hlo Hhi Hr0 Hr1. unfold nextStress.
  split; [apply qround_ge_Z | apply qround_le_Z];
    change (inject_Z 26) with 26; change (inject_Z 73) with 73;
    destruct (baseFactorAt_cases hour) as [E | [E | E]]; rewrite E; lra.
Qed.

Lemma clamp_identity (z : Z) : (26 <= z <= 73)%Z -> Z.max 20 (Z.min 85 z) = z.
Proof. lia. Qed.

Lemma inject_Z_between (z : Z) (lo hi : Z) :
  (lo <= z <= hi)%Z -> inject_Z lo <= inject_Z z /\ inject_Z z <= inject_Z hi.
Proof. intros [H1 H2]. split; now rewrite <- Zle_Qle. Qed.

Section ForecastFacts.

Variable random : nat -> Q.
Variable clock : nat -> Z.
Variable getHours : Z -> Z.

(** [Math.random()] returns a number in [0, 1). *)
Hypothesis random_range : forall k, 0 <= random k /\ random k < 1.

Lemma initialLoop_prevStress (w : World) :
  26 <= prevStress (initialLoop random w) /\ prevStress (initialLoop random w) <= 73.
Proof.
  unfold initialLoop. cbn [prevStress].
  destruct (random_range (randoms w)). split; lra.
Qed.

(** The loop invariant: the running value never leaves [26, 73]. *)
Lemma loopReaches_prevStress (now horizon : Z) (w : World) (st : LoopState) :
  loopReaches random getHours now horizon (initialLoop random w) st ->
  26 <= prevStress st /\ prevStress st <= 73.
Proof.
  induction 1 as [|st Hreach [IHlo IHhi] Hi].
  - apply initialLoop_prevStress.
  - unfold loopBody. cbn [prevStress].
    destruct (random_range (loop_randoms st)) as [Hr0 Hr1].
    apply (inject_Z_between _ 26 73).
    now apply nextStress_bounds.
Qed.

(** C7: in every state the loop reaches, the running [prevStress] lies
    in [20, 85]; the next iteration stores as the new [prevStress] the
    stress clamped to [20, 85], the very value it reports as
    [predicted_stress], and that value lies in [20, 85] again. *)
Theorem prevStress_stays_clamped (now horizon : Z) (w : World) (st : LoopState) :
  loopReaches random getHours now horizon (initialLoop random w) st ->
  let stress :=
    nextStress (getHours (now + loop_i st * 60 * 1000)%Z) (prevStress st)
               (random (loop_randoms st)) in
  let clamped := Z.max 20 (Z.min 85 stress) in
  let st' := loopBody random getHours now st in
  (20 <= prevStress st /\ prevStress st <= 85)
  /\ prevStress st' = inject_Z clamped
  /\ (exists p, forecast st' = forecast st ++ [p]
                /\ ForecastPoint.predicted_stress p = clamped)
  /\ (20 <= prevStress st' /\ prevStress st' <= 85).
Proof.
  intros Hreach stress clamped st'.
  destruct (loopReaches_prevStress now horizon w st Hreach) as [Hlo Hhi].
  destruct (random_range (loop_randoms st)) as [Hr0 Hr1].
  assert (26 <= stress <= 73)%Z as Hstress
      by (now apply nextStress_bounds).
  assert (clamped = stress) as Hclamp by (now apply clamp_identity).
  split; [split; lra|].
  split; [subst st'; unfold loopBody; cbn [prevStress]; now rewrite Hclamp|].
  split.
  - eexists. split; [reflexivity|]. reflexivity.
  - subst st'. unfold loopBody. cbn [prevStress]. fold stress.
    destruct (inject_Z_between stress 26 73 Hstress) as [H1 H2].
    change (inject_Z 26) with 26 in H1. change (inject_Z 73) with 73 in H2.
    split; lra.
Qed.

End ForecastFacts.

Lemma qmax_comp_r (a x y : Q) : x == y -> JS.qmax a x == JS.qmax a y.
Proof.
  intros H. unfold JS.qmax. case_Qle a x; case_Qle a y; lra.
Qed.

Lemma confidenceOf_decays (p q : ForecastPoint.t) :
  confidenceOf p -> confidenceOf q ->
  (ForecastPoint.minutes_ahead p <= ForecastPoint.minutes_ahead q)%Z ->
  ForecastPoint.confidence q <= ForecastPoint.confidence p.
Proof.
  unfold confidenceOf. intros Hp Hq Hle. rewrite Hp, Hq.
  apply qmax_mono_r. rewrite Zle_Qle in Hle. lra.
Qed.

Section SeriesFacts.

Variable random : nat -> Q.
Variable clock : nat -> Z.
Variable getHours : Z -> Z.

Lemma loopBody_confidence (now : Z) (st : LoopState) :
  Forall confidenceOf (forecast st) ->
  Forall confidenceOf (forecast (loopBody random getHours now st)).
Proof.
  intros H. unfold loopBody, push. cbn [forecast].
  apply Forall_app. split; [exact H|].
  constructor; [|constructor].
  unfold confidenceOf. cbn [ForecastPoint.confidence ForecastPoint.minutes_ahead].
  apply qmax_comp_r. ring.
Qed.

Lemma forLoop_confidence (fuel : nat) (now horizon : Z) (st : LoopState) :
  Forall confidenceOf (forecast st) ->
  Forall confidenceOf (forecast (forLoop random getHours fuel now horizon st)).
Proof.
  revert st. induction fuel as [|fuel IH]; intros st H; cbn [forLoop].
  - exact H.
  - destruct (loop_i st <=? horizon)%Z; [|exact H].
    apply IH. now apply loopBody_confidence.
Qed.

(** Every state the function leaves the loop in was reached by it. *)
Lemma forLoop_reaches (fuel : nat) (now horizon : Z) (st0 st : LoopState) :
  loopReaches random getHours now horizon st0 st ->
  loopReaches random getHours now horizon st0
              (forLoop random getHours fuel now horizon st).
Proof.
  revert st. induction fuel as [|fuel IH]; intros st H; cbn [forLoop].
  - exact H.
  - destruct (loop_i st <=? horizon)%Z eqn:E; [|exact H].
    apply IH. apply reaches_step; [exact H|]. now apply Z.leb_le.
Qed.

(** The loop only appends. *)
Lemma forLoop_appends (fuel : nat) (now horizon : Z) (st : LoopState) :
  exists l,
    forecast (forLoop random getHours fuel now horizon st) = forecast st ++ l.
Proof.
  revert st. induction fuel as [|fuel IH]; intros st; cbn [forLoop].
  - exists []. now rewrite app_nil_r.
  - destruct (loop_i st <=? horizon)%Z.
    + destruct (IH (loopBody random getHours now st)) as [l Hl].
      rewrite Hl. unfold loopBody, push. cbn [forecast].
      eexists. rewrite <- app_assoc. reflexivity.
    + exists []. now rewrite app_nil_r.
Qed.

(** The given fuel lets the loop run to its exit test. *)
Lemma forLoop_exits (fuel : nat) (now horizon : Z) (st : LoopState) :
  (horizon - loop_i st < 15 * Z.of_nat fuel)%Z ->
  (horizon < loop_i (forLoop random getHours fuel now horizon st))%Z.
Proof.
  revert st. induction fuel as [|fuel IH]; intros st H; cbn [forLoop].
  - lia.
  - destruct (loop_i st <=? horizon)%Z eqn:E.
    + apply IH. unfold loopBody. cbn [loop_i]. lia.
    + apply Z.leb_gt in E. exact E.
Qed.

Lemma loopFuel_enough (horizon : Z) (w : World) :
  (horizon - loop_i (initialLoop random w) < 15 * Z.of_nat (loopFuel horizon))%Z.
Proof.
  unfold loopFuel, initialLoop. cbn [loop_i].
  destruct (Z.le_gt_cases 0 horizon) as [H | H]; [|lia].
  rewrite Z2Nat.id by (pose proof (Z.div_pos horizon 15); lia).
  pose proof (Z.mod_pos_bound horizon 15).
  pose proof (Z.div_mod horizon 15). lia.
Qed.

(** The loop of [forecastNode] always runs to completion. *)
Lemma forLoop_terminates (now horizon : Z) (w : World) :
  (horizon
   < loop_i (forLoop random getHours (loopFuel horizon) now horizon
                     (initialLoop random w)))%Z.
Proof. apply forLoop_exits, loopFuel_enough. Qed.

Lemma forecastNode_confidence (nid : string) (horizon : Z) (w w' : World)
    (f : NodeForecast.t) :
  forecastNode random clock getHours nid horizon w = Some (f, w') ->
  Forall confidenceOf (NodeForecast.forecast f).
Proof.
  unfold forecastNode.
  pose proof (forLoop_confidence (loopFuel horizon) (clock (dates w)) horizon
                (initialLoop random w) (Forall_nil _)) as H.
  destruct (forecast (forLoop random getHours (loopFuel horizon)
                              (clock (dates w)) horizon (initialLoop random w)))
    as [|first rest] eqn:E; [discriminate|].
  intros Heq. injection Heq as <- _. exact H.
Qed.

(** With a horizon that is not negative the series has its point at
    minute 0 and the call returns. *)
Lemma forecastNode_returns (nid : string) (horizon : Z) (w : World) :
  (0 <= horizon)%Z ->
  exists f w', forecastNode random clock getHours nid horizon w = Some (f, w').
Proof.
  intros H. unfold forecastNode.
  assert (exists p l,
             forecast (forLoop random getHours (loopFuel horizon)
                               (clock (dates w)) horizon (initialLoop random w))
             = p :: l) as (p & l & E).
  { unfold loopFuel.
    destruct (Z.to_nat (horizon / 15 + 1)) as [|fuel] eqn:Efuel.
    - pose proof (Z.div_pos horizon 15). lia.
    - cbn [forLoop].
      replace (loop_i (initialLoop random w) <=? horizon)%Z with true
        by (symmetry; now apply Z.leb_le).
      destruct (forLoop_appends fuel (clock (dates w)) horizon
                  (loopBody random getHours (clock (dates w))
                     (initialLoop random w))) as [l Hl].
      rewrite Hl. unfold loopBody, push, initialLoop. cbn [forecast app].
      eexists. eexists. reflexivity. }
  rewrite E. eexists. eexists. reflexivity.
Qed.

Lemma mapNodes_confidence (nodes : list string) (horizon : Z) (w w' : World)
    (fs : list NodeForecast.t) :
  mapNodes random clock getHours nodes horizon w = Some (fs, w') ->
  Forall (fun f => Forall confidenceOf (NodeForecast.forecast f)) fs.
Proof.
  revert w w' fs. induction nodes as [|nid nodes IH]; intros w w' fs; cbn [mapNodes].
  - intros H. injection H as <- _. constructor.
  - destruct (forecastNode random clock getHours nid horizon w)
      as [[f w1]|] eqn:Ef; [|discriminate].
    destruct (mapNodes random clock getHours nodes horizon w1)
      as [[fs' w2]|] eqn:Em; [|discriminate].
    intros H. injection H as <- _. constructor.
    + eapply forecastNode_confidence. exact Ef.
    + eapply IH. exact Em.
Qed.

Lemma mapNodes_returns (nodes : list string) (horizon : Z) (w : World) :
  (0 <= horizon)%Z ->
  exists fs w',
    mapNodes random clock getHours nodes horizon w = Some (fs, w')
    /\ List.length fs = List.length nodes.
Proof.
  intros H. revert w. induction nodes as [|nid nodes IH]; intros w; cbn [mapNodes].
  - exists [], w. auto.
  - destruct (forecastNode_returns nid horizon w H) as (f & w1 & Ef).
    rewrite Ef. destruct (IH w1) as (fs & w2 & Em & Hlen). rewrite Em.
    exists (f :: fs), w2. cbn. auto.
Qed.

(** The generator returns for every horizon that is not negative. *)
Lemma fallbackForecast_returns (nodeId : option string) (horizon : Z) (w : World) :
  (0 <= horizon)%Z ->
  exists res, fallbackForecast random clock getHours nodeId horizon w = Some res.
Proof.
  intros H. unfold fallbackForecast.
  destruct (truthy nodeId) as [nid|].
  - destruct (mapNodes_returns [nid] horizon w H) as (fs & w' & Em & Hlen).
    rewrite Em. destruct fs as [|f fs]; [discriminate Hlen|]. eauto.
  - destruct (mapNodes_returns ["node_1"; "node_2"; "node_3"; "node_4"; "node_5"]
                horizon w H) as (fs & w' & Em & Hlen).
    rewrite Em. eauto.
Qed.

(** C8: in every series the fallback generator produces, each point has
    the confidence max(0.65, 0.9 - 0.003 * minutesAhead), and of two
    points the one further ahead has the confidence that is not
    larger. *)
Theorem confidence_decays (nodeId : option string) (horizon : Z) (w : World)
    (res : ForecastResult) (series : NodeForecast.t) (p q : ForecastPoint.t) :
  fallbackForecast random clock getHours nodeId horizon w = Some res ->
  In series (seriesOf res) ->
  In p (NodeForecast.forecast series) ->
  In q (NodeForecast.forecast series) ->
  ForecastPoint.confidence p
  == JS.qmax 0.65 (0.9 - 0.003 * inject_Z (ForecastPoint.minutes_ahead p))
  /\ ((ForecastPoint.minutes_ahead p <= ForecastPoint.minutes_ahead q)%Z ->
      ForecastPoint.confidence q <= ForecastPoint.confidence p).
Proof.
  intros Hres Hseries Hp Hq.
  assert (Forall confidenceOf (NodeForecast.forecast series)) as Hall.
  { unfold fallbackForecast in Hres.
    destruct (mapNodes random clock getHours _ horizon w) as [[fs w']|] eqn:Em;
      [|discriminate].
    apply mapNodes_confidence in Em. rewrite Forall_forall in Em.
    apply Em.
    destruct (truthy nodeId).
    - destruct fs as [|f fs]; [discriminate|].
      injection Hres as <-. cbn in Hseries.
      destruct Hseries as [<- | []]. now left.
    - injection Hres as <-. exact Hseries. }
  rewrite Forall_forall in Hall.
  split.
  - apply (Hall p Hp).
  - intros Hle. apply confidenceOf_decays; auto.
Qed.

End SeriesFacts.

(** ** The forecast on the sample inputs *)

Lemma sampleRandom_range (k : nat) : 0 <= sampleRandom k /\ sampleRandom k < 1.
Proof. unfold sampleRandom, Qle, Qlt. simpl. lia. Qed.

Lemma prevStress_stays_clamped_witness :
  let st := loopBody sampleRandom sampleHours 0
                     (initialLoop sampleRandom sampleWorld) in
  20 <= prevStress (loopBody sampleRandom sampleHours 0 st)
  /\ prevStress (loopBody sampleRandom sampleHours 0 st) <= 85.
Proof.
  cbv zeta.
  apply (prevStress_stays_clamped sampleRandom sampleHours sampleRandom_range
           0 60 sampleWorld).
  apply reaches_step; [apply reaches_start|].
  vm_compute. discriminate.
Defined.

Lemma confidence_decays_witness :
  ForecastPoint.confidence (samplePoint 4) <= ForecastPoint.confidence (samplePoint 0).
Proof.
  apply (confidence_decays sampleRandom sampleClock sampleHours
           (Some "node_1") 60 sampleWorld (OneNode sampleSeries) sampleSeries
           (samplePoint 0) (samplePoint 4)).
  - vm_compute. reflexivity.
  - left. reflexivity.
  - vm_compute. auto.
  - vm_compute. auto 10.
  - vm_compute. discriminate.
Defined.

(** Horizon 60 gives the five points at minutes 0, 15, 30, 45 and 60. *)
Example sample_forecast_points :
  map (fun p => (ForecastPoint.minutes_ahead p, ForecastPoint.predicted_stress p))
      (NodeForecast.forecast sampleSeries)
  = [(0, 49); (15, 45); (30, 42); (45, 40); (60, 39)]%Z
  /\ NodeForecast.trend sampleSeries = "decreasing".
Proof. split; vm_compute; reflexivity. Qed.

(** A negative horizon leaves the series empty and the call fails. *)
Example negative_horizon_fails :
  fallbackForecast sampleRandom sampleClock sampleHours (Some "node_1") (-1)
                   sampleWorld = None.
Proof. vm_compute. reflexivity. Qed.

(** * Further properties of the code *)

(** ** Scoring *)

Ltac norm_div :=
  unfold Qdiv in *;
  change (/ 60) with (1 # 60) in *; change (/ 25) with (1 # 25) in *;
  change (/ 150) with (1 # 150) in *; change (/ 30) with (1 # 30) in *;
  change (/ 10) with (1 # 10) in *; change (/ 100) with (1 # 100) in *.

Lemma qmin_mono_l (x y k : Q) : x <= y -> JS.qmin x k <= JS.qmin y k.
Proof. intros H. unfold JS.qmin. case_Qle x k; case_Qle y k; lra. Qed.

Lemma weightedSum_mono (n t a c n' t' a' c' : Q) :
  n <= n' -> t <= t' -> a <= a' -> c <= c' ->
  weightedSum n t a c <= weightedSum n' t' a' c'.
Proof.
  intros Hn Ht Ha Hc. unfold weightedSum.
  assert (JS.qmin ((n - 40) / 60 * 100) 100 <= JS.qmin ((n' - 40) / 60 * 100) 100)
    by (apply qmin_mono_l; norm_div; lra).
  assert (JS.qmin ((t - 15) / 25 * 100) 100 <= JS.qmin ((t' - 15) / 25 * 100) 100)
    by (apply qmin_mono_l; norm_div; lra).
  assert (JS.qmin (a / 150 * 100) 100 <= JS.qmin (a' / 150 * 100) 100)
    by (apply qmin_mono_l; norm_div; lra).
  assert (JS.qmin (c / 30 * 100) 100 <= JS.qmin (c' / 30 * 100) 100)
    by (apply qmin_mono_l; norm_div; lra).
  lra.
Qed.

(** X1: the stress index is monotone: raising any of the four sensor
    values never lowers it. *)
Theorem stressIndex_monotone (n t a c n' t' a' c' : Q) :
  n <= n' -> t <= t' -> a <= a' -> c <= c' ->
  exists z z' : Z,
    calculateStressIndex (finiteSensors n t a c) = JS.Fin (inject_Z z)
    /\ calculateStressIndex (finiteSensors n' t' a' c') = JS.Fin (inject_Z z')
    /\ (z <= z')%Z.
Proof.
  intros Hn Ht Ha Hc.
  exists (Z.max 0 (JS.qround (weightedSum n t a c))),
         (Z.max 0 (JS.qround (weightedSum n' t' a' c'))).
  split; [apply calculateStressIndex_finite|].
  split; [apply calculateStressIndex_finite|].
  apply Z.max_le_compat_l, qround_mono. now apply weightedSum_mono.
Qed.

Lemma stressIndex_monotone_witness :
  exists z z' : Z,
    calculateStressIndex (finiteSensors 50 20 50 5) = JS.Fin (inject_Z z)
    /\ calculateStressIndex (finiteSensors 90 20 50 5) = JS.Fin (inject_Z z')
    /\ (z <= z')%Z.
Proof.
  apply (stressIndex_monotone 50 20 50 5 90 20 50 5); unfold Qle; simpl; lia.
Defined.

Lemma subscore_saturates (x b d cap : Q) :
  0 < d -> (cap - b) / d * 100 == 100 ->
  JS.qmin ((JS.qmin x cap - b) / d * 100) 100 == JS.qmin ((x - b) / d * 100) 100.
Proof.
  intros Hd Hcap. unfold JS.qmin at 2. case_Qle x cap; [reflexivity|].
  assert ((cap - b) / d * 100 <= (x - b) / d * 100) as Hx.
  { unfold Qdiv.
    apply Qmult_le_compat_r; [|lra].
    apply Qmult_le_compat_r; [lra|].
    apply Qlt_le_weak, Qinv_lt_0_compat, Hd. }
  set (u := (cap - b) / d * 100) in *. set (v := (x - b) / d * 100) in *.
  clearbody u v. unfold JS.qmin. case_Qle u 100; case_Qle v 100; lra.
Qed.

Lemma weightedSum_capped (n t a c : Q) :
  weightedSum (JS.qmin n 100) (JS.qmin t 40) (JS.qmin a 150) (JS.qmin c 30)
  == weightedSum n t a c.
Proof.
  unfold weightedSum.
  pose proof (subscore_saturates n 40 60 100) as Hn.
  pose proof (subscore_saturates t 15 25 40) as Ht.
  pose proof (subscore_saturates a 0 150 150) as Ha.
  pose proof (subscore_saturates c 0 30 30) as Hc.
  assert (JS.qmin ((JS.qmin a 150 - 0) / 150 * 100) 100
          == JS.qmin (JS.qmin a 150 / 150 * 100) 100) as Ea.
  { unfold JS.qmin at 1 3.
    case_Qle ((JS.qmin a 150 - 0) / 150 * 100) 100;
      case_Qle (JS.qmin a 150 / 150 * 100) 100; norm_div; lra. }
  assert (JS.qmin ((a - 0) / 150 * 100) 100 == JS.qmin (a / 150 * 100) 100) as Ea'.
  { unfold JS.qmin.
    case_Qle ((a - 0) / 150 * 100) 100; case_Qle (a / 150 * 100) 100;
      norm_div; lra. }
  assert (JS.qmin ((JS.qmin c 30 - 0) / 30 * 100) 100
          == JS.qmin (JS.qmin c 30 / 30 * 100) 100) as Ec.
  { unfold JS.qmin at 1 3.
    case_Qle ((JS.qmin c 30 - 0) / 30 * 100) 100;
      case_Qle (JS.qmin c 30 / 30 * 100) 100; norm_div; lra. }
  assert (JS.qmin ((c - 0) / 30 * 100) 100 == JS.qmin (c / 30 * 100) 100) as Ec'.
  { unfold JS.qmin.
    case_Qle ((c - 0) / 30 * 100) 100; case_Qle (c / 30 * 100) 100;
      norm_div; lra. }
  rewrite Hn, Ht by (try reflexivity; lra).
  rewrite <- Ea, <- Ec, Ha, Hc, Ea', Ec' by (try reflexivity; lra).
  reflexivity.
Qed.

Lemma weightedSum_at_caps (n t a c : Q) :
  100 <= n -> 40 <= t -> 150 <= a -> 30 <= c -> weightedSum n t a c == 100.
Proof.
  intros Hn Ht Ha Hc. unfold weightedSum, JS.qmin.
  case_Qle ((n - 40) / 60 * 100) 100; case_Qle ((t - 15) / 25 * 100) 100;
    case_Qle (a / 150 * 100) 100; case_Qle (c / 30 * 100) 100;
    norm_div; lra.
Qed.

(** X2: each sensor saturates: above noise 100, temperature 40, air
    quality 150 and crowd 30 a value counts as the cap, and with all
    four at or above their caps the index is 100. *)
Theorem stressIndex_saturates (n t a c : Q) :
  calculateStressIndex (finiteSensors n t a c)
  = calculateStressIndex
      (finiteSensors (JS.qmin n 100) (JS.qmin t 40) (JS.qmin a 150) (JS.qmin c 30))
  /\ (100 <= n -> 40 <= t -> 150 <= a -> 30 <= c ->
      calculateStressIndex (finiteSensors n t a c) = JS.Fin 100).
Proof.
  split.
  - rewrite !calculateStressIndex_finite. do 3 f_equal.
    apply qround_comp. symmetry. apply weightedSum_capped.
  - intros Hn Ht Ha Hc. rewrite calculateStressIndex_finite.
    rewrite (qround_comp _ 100) by (now apply weightedSum_at_caps).
    reflexivity.
Qed.

Lemma stressIndex_saturates_witness :
  calculateStressIndex (finiteSensors 120 45 300 60) = JS.Fin 100.
Proof.
  apply (stressIndex_saturates 120 45 300 60); unfold Qle; simpl; lia.
Defined.

(** ** The mock generator *)

Lemma tenths_between (x : Q) (lo hi : Z) :
  inject_Z lo <= x -> x <= inject_Z hi ->
  inject_Z lo / 10 <= inject_Z (JS.qround x) / 10
  /\ inject_Z (JS.qround x) / 10 <= inject_Z hi / 10.
Proof.
  intros Hlo Hhi.
  pose proof (qround_ge_Z x lo Hlo) as H1. pose proof (qround_le_Z x hi Hhi) as H2.
  rewrite Zle_Qle in H1, H2. norm_div. split; lra.
Qed.

Lemma units_between (x : Q) (lo hi : Z) :
  inject_Z lo <= x -> x <= inject_Z hi ->
  inject_Z lo <= inject_Z (JS.qround x) /\ inject_Z (JS.qround x) <= inject_Z hi.
Proof.
  intros Hlo Hhi.
  pose proof (qround_ge_Z x lo Hlo) as H1. pose proof (qround_le_Z x hi Hhi) as H2.
  rewrite Zle_Qle in H1, H2. split; assumption.
Qed.

Lemma mockSensors_range (r1 r2 r3 r4 : Q) :
  (0 <= r1 /\ r1 < 1) -> (0 <= r2 /\ r2 < 1) ->
  (0 <= r3 /\ r3 < 1) -> (0 <= r4 /\ r4 < 1) ->
  exists n t a c : Q,
    mockSensors r1 r2 r3 r4 = finiteSensors n t a c /\ mockRange n t a c.
Proof.
  intros [H1 H1'] [H2 H2'] [H3 H3'] [H4 H4'].
  eexists _, _, _, _. split; [reflexivity|].
  unfold mockRange.
  destruct (tenths_between ((40 + r1 * 55) * 10) 400 950) as [A1 A2];
    [change (inject_Z 400) with 400; lra | change (inject_Z 950) with 950; lra|].
  destruct (tenths_between ((18 + r2 * 17) * 10) 180 350) as [B1 B2];
    [change (inject_Z 180) with 180; lra | change (inject_Z 350) with 350; lra|].
  destruct (units_between (30 + r3 * 100) 30 130) as [C1 C2];
    [change (inject_Z 30) with 30; lra | change (inject_Z 130) with 130; lra|].
  destruct (units_between (r4 * 25) 0 25) as [D1 D2];
    [change (inject_Z 0) with 0; lra | change (inject_Z 25) with 25; lra|].
  change (inject_Z 400 / 10) with (400 / 10) in A1.
  change (inject_Z 950 / 10) with (950 / 10) in A2.
  change (inject_Z 180 / 10) with (180 / 10) in B1.
  change (inject_Z 350 / 10) with (350 / 10) in B2.
  change (inject_Z 30) with 30 in C1. change (inject_Z 130) with 130 in C2.
  change (inject_Z 0) with 0 in D1. change (inject_Z 25) with 25 in D2.
  norm_div. repeat split; lra.
Qed.

Lemma weightedSum_mock (n t a c : Q) :
  mockRange n t a c ->
  7 <= weightedSum n t a c /\ weightedSum n t a c <= 87.
Proof.
  intros [[Hn Hn'] [[Ht Ht'] [[Ha Ha'] [Hc Hc']]]].
  unfold weightedSum, JS.qmin.
  case_Qle ((n - 40) / 60 * 100) 100; case_Qle ((t - 15) / 25 * 100) 100;
    case_Qle (a / 150 * 100) 100; case_Qle (c / 30 * 100) 100;
    norm_div; split; lra.
Qed.

(** X3: with the draws of [Math.random()] in [0, 1), a mock reading has
    noise in [40, 95], temperature in [18, 35], air quality in
    [30, 130] and crowd in [0, 25], and its stress index is an integer
    between 7 and 87. *)
Theorem mock_reading_ranges (nodeId : string) (coordinates : Q * Q)
    (r1 r2 r3 r4 : Q) (now : Z) :
  (0 <= r1 /\ r1 < 1) -> (0 <= r2 /\ r2 < 1) ->
  (0 <= r3 /\ r3 < 1) -> (0 <= r4 /\ r4 < 1) ->
  let d := generateMockNodeData nodeId coordinates r1 r2 r3 r4 now in
  exists (n t a c : Q) (z : Z),
    NodeData.sensors d = finiteSensors n t a c
    /\ mockRange n t a c
    /\ NodeData.stressIndex d = JS.Fin (inject_Z z)
    /\ (7 <= z <= 87)%Z.
Proof.
  intros H1 H2 H3 H4 d.
  destruct (mockSensors_range r1 r2 r3 r4 H1 H2 H3 H4) as (n & t & a & c & E & R).
  exists n, t, a, c, (Z.max 0 (JS.qround (weightedSum n t a c))).
  subst d. unfold generateMockNodeData, mockNodeDataOf.
  cbn [NodeData.sensors NodeData.stressIndex]. rewrite E.
  split; [reflexivity|]. split; [exact R|].
  split; [apply calculateStressIndex_finite|].
  destruct (weightedSum_mock n t a c R) as [Hlo Hhi].
  pose proof (qround_ge_Z (weightedSum n t a c) 7 Hlo).
  pose proof (qround_le_Z (weightedSum n t a c) 87 Hhi).
  lia.
Qed.

Lemma mock_reading_ranges_witness :
  exists (n t a c : Q) (z : Z),
    NodeData.sensors (generateMockNodeData "CP-MOH-01" (76.6934, 30.7046)
                                           0.999 0.999 0.999 0.999 0)
    = finiteSensors n t a c
    /\ mockRange n t a c
    /\ NodeData.stressIndex (generateMockNodeData "CP-MOH-01" (76.6934, 30.7046)
                                                  0.999 0.999 0.999 0.999 0)
       = JS.Fin (inject_Z z)
    /\ (7 <= z <= 87)%Z.
Proof.
  apply (mock_reading_ranges "CP-MOH-01" (76.6934, 30.7046)
                             0.999 0.999 0.999 0.999 0);
    unfold Qle, Qlt; simpl; lia.
Defined.

(** Both ends of the range are reached. *)
Example mock_reading_extremes :
  NodeData.stressIndex
    (generateMockNodeData "CP-MOH-01" (76.6934, 30.7046) 0 0 0 0 0) = JS.Fin 7
  /\ NodeData.stressIndex
       (generateMockNodeData "CP-MOH-01" (76.6934, 30.7046)
                             0.9999 0.9999 0.9999 0.9999 0) = JS.Fin 87.
Proof. split; vm_compute; reflexivity. Qed.

(** ** What the panels show *)

Lemma calculateStressIndex_malformed (s : SensorData) :
  malformed s -> calculateStressIndex s = JS.NaN.
Proof.
  unfold malformed, malformedField. intros H.
  unfold calculateStressIndex, nScore, tScore, aScore, dScore,
    JS.add, JS.sub, JS.mul, JS.div, JS.min, JS.max.
  destruct H as [H | [H | [H | H]]]; rewrite H; cbn [JS.lift2 JS.round];
    repeat (rewrite ?lift2_NaN_l, ?lift2_NaN_r; cbn [JS.round]); reflexivity.
Qed.

(** X4: a reading with a missing or NaN field is presented as a quiet
    one: a node carrying its score is labelled nominal and coloured
    cyan in the panel and on the map, is not counted as critical, and
    is logged Normal. *)
Theorem malformed_reading_shown_nominal (s : SensorData) (d : NodeData.t) :
  malformed s ->
  NodeData.stressIndex d = calculateStressIndex s ->
  getStressLabel (NodeData.stressIndex d) = "NOMINAL PULSE"
  /\ getStressColor (NodeData.stressIndex d) = "#00F5FF"
  /\ getNodeColor d = "#00F5FF"
  /\ isGlobalCritical [d] = false
  /\ ActivityLogEntry.eventType (generateActivityLog d) = Normal.
Proof.
  intros Hs Hd. apply calculateStressIndex_malformed in Hs.
  unfold getStressLabel, getStressColor, getNodeColor, generateActivityLog,
    isGlobalCritical.
  cbn [ActivityLogEntry.eventType existsb].
  rewrite Hd, Hs. cbn. repeat split; reflexivity.
Qed.

Lemma malformed_reading_shown_nominal_witness :
  let s := mkSensorData JS.Undefined (JS.Number (JS.Fin 99))
                        (JS.Number (JS.Fin 140)) (JS.Number (JS.Fin 29)) in
  getStressLabel (NodeData.stressIndex (mockNodeDataOf "CP-MOH-03" (0, 0) s 0))
  = "NOMINAL PULSE".
Proof.
  cbv zeta.
  apply (malformed_reading_shown_nominal
           (mkSensorData JS.Undefined (JS.Number (JS.Fin 99))
                         (JS.Number (JS.Fin 140)) (JS.Number (JS.Fin 29)))
           (mockNodeDataOf "CP-MOH-03" (0, 0)
              (mkSensorData JS.Undefined (JS.Number (JS.Fin 99))
                            (JS.Number (JS.Fin 140)) (JS.Number (JS.Fin 29))) 0)).
  - left. reflexivity.
  - reflexivity.
Defined.

(** X5: the activity log and the mock generator agree: a mock reading
    is logged Critical exactly when it is flagged as an anomaly,
    Elevated exactly when it carries the elevated-activity message, and
    Normal exactly when it carries the nominal message. *)
Theorem mock_log_agrees_with_flag (nodeId : string) (coordinates : Q * Q)
    (r1 r2 r3 r4 : Q) (now : Z) :
  let d := generateMockNodeData nodeId coordinates r1 r2 r3 r4 now in
  let e := ActivityLogEntry.eventType (generateActivityLog d) in
  (e = Critical <-> NodeData.isAnomaly d = true)
  /\ (e = Elevated <-> NodeData.aiExplanation d = elevatedExplanation)
  /\ (e = Normal <-> NodeData.aiExplanation d = nominalExplanation).
Proof.
  cbv zeta. unfold generateMockNodeData, mockNodeDataOf, generateActivityLog.
  cbn [ActivityLogEntry.eventType NodeData.isAnomaly NodeData.aiExplanation
       NodeData.stressIndex].
  destruct (JS.gt (calculateStressIndex (mockSensors r1 r2 r3 r4)) (JS.Fin 80)).
  - destruct (JS.gt (JS.toNumber (noise (mockSensors r1 r2 r3 r4))) (JS.Fin 85));
      [|destruct (JS.gt (JS.toNumber (temp (mockSensors r1 r2 r3 r4))) (JS.Fin 32))];
      repeat split; intros H; try reflexivity; try discriminate H.
  - destruct (JS.gt (calculateStressIndex (mockSensors r1 r2 r3 r4)) (JS.Fin 55));
      repeat split; intros H; try reflexivity; try discriminate H.
Qed.

(** The crisis demo is logged Critical as well. *)
Example crisis_logged_critical (selectedNode : NodeData.t) (now : Z) :
  ActivityLogEntry.eventType (generateActivityLog (crisisData selectedNode now))
  = Critical.
Proof. reflexivity. Qed.

(** X6: the map and the activity feed give a reading the same colour. *)
Theorem map_and_feed_colours_agree (node : NodeData.t) :
  getEventColor (ActivityLogEntry.eventType (generateActivityLog node))
  = ("text-[" ++ getNodeColor node ++ "]")%string.
Proof.
  unfold getNodeColor, generateActivityLog. cbn [ActivityLogEntry.eventType].
  destruct (JS.gt (NodeData.stressIndex node) (JS.Fin 80)); [reflexivity|].
  destruct (JS.gt (NodeData.stressIndex node) (JS.Fin 55)); reflexivity.
Qed.

Lemma gt_trans_lit (v a b : Q) : a <= b -> JS.gt (JS.Fin v) (JS.Fin b) = true ->
  JS.gt (JS.Fin v) (JS.Fin a) = true.
Proof.
  unfold JS.gt. rewrite !negb_true_iff, !Qle_bool_false. intros; lra.
Qed.

(** X7: a sensor value that fires a threshold of the back-end detector
    (noise above 85, temperature above 35, air quality above 120, crowd
    above 25) is shown red in its row of the panel. *)
Theorem fired_threshold_shown_red (reading : Reading.t) :
  (85 < Reading.noise reading ->
   getSensorColor "noise" (JS.Fin (Reading.noise reading)) = "#FF3B3B")
  /\ (35 < Reading.temperature reading ->
      getSensorColor "temp" (JS.Fin (Reading.temperature reading)) = "#FF3B3B")
  /\ (120 < Reading.air_quality reading ->
      getSensorColor "airQuality" (JS.Fin (Reading.air_quality reading)) = "#FF3B3B")
  /\ (25 < Reading.crowd_density reading ->
      getSensorColor "crowd" (JS.Fin (Reading.crowd_density reading)) = "#FF3B3B").
Proof.
  unfold getSensorColor. cbn [String.eqb Ascii.eqb Bool.eqb andb].
  repeat split; intros H.
  - rewrite (gt_trans_lit _ 80 85); [reflexivity | lra | now apply Qgtb_true].
  - rewrite (gt_trans_lit _ 34 35); [reflexivity | lra | now apply Qgtb_true].
  - rewrite (gt_trans_lit _ 100 120); [reflexivity | lra | now apply Qgtb_true].
  - rewrite (gt_trans_lit _ 20 25); [reflexivity | lra | now apply Qgtb_true].
Qed.

Lemma fired_threshold_shown_red_witness :
  getSensorColor "crowd" (JS.Fin 28) = "#FF3B3B".
Proof.
  apply (fired_threshold_shown_red (Reading.mk 60 25 80 28 55)).
  unfold Qlt. simpl. lia.
Defined.

(** ** The history buffer on any input *)

(** X8: whatever history it is handed, also one longer than 20,
    [generateHistoricalData] returns at most 20 points, never none;
    the new point is the last one and the points before it are the
    most recent of the old ones, in their order. *)
Theorem generateHistoricalData_shape (currentData : NodeData.t)
    (existingHistory : list HistoricalDataPoint.t) :
  generateHistoricalData currentData existingHistory
  = sliceLast 19 existingHistory ++ [historicalPoint currentData]
  /\ List.length (generateHistoricalData currentData existingHistory)
     = Nat.min (S (List.length existingHistory)) 20.
Proof.
  rewrite generateHistoricalData_push. split.
  - unfold sliceLast. rewrite length_app. cbn [List.length].
    rewrite skipn_app.
    replace (List.length existingHistory + 1 - 20)%nat
      with (List.length existingHistory - 19)%nat by lia.
    replace (List.length existingHistory - 19 - List.length existingHistory)%nat
      with 0%nat by lia.
    reflexivity.
  - rewrite sliceLast_length, length_app. cbn [List.length]. lia.
Qed.

(** ** The anomaly alerts *)

Lemma setHas_add (s : list string) (x y : string) :
  setHas (setAdd s x) y = (String.eqb y x || setHas s y).
Proof.
  unfold setAdd. destruct (setHas s x) eqn:E.
  - destruct (String.eqb y x) eqn:Eyx; [|reflexivity].
    apply String.eqb_eq in Eyx. subst y. now rewrite E.
  - unfold setHas. rewrite existsb_app. cbn.
    rewrite orb_false_r. apply orb_comm.
Qed.

Lemma setHas_delete (s : list string) (x y : string) :
  setHas (setDelete s x) y = (negb (String.eqb y x) && setHas s y).
Proof.
  unfold setHas, setDelete. induction s as [|z s IH]; cbn.
  - now rewrite andb_false_r.
  - destruct (String.eqb x z) eqn:Exz; cbn.
    + apply String.eqb_eq in Exz. subst z. rewrite IH.
      destruct (String.eqb y x); reflexivity.
    + rewrite IH. destruct (String.eqb y z) eqn:Eyz; cbn.
      * apply String.eqb_eq in Eyz. subst z.
        rewrite String.eqb_sym, Exz. reflexivity.
      * reflexivity.
Qed.

Lemma lastAnomalous_app (ds : list NodeData.t) (d : NodeData.t) (n : string) :
  lastAnomalous (ds ++ [d]) n
  = if String.eqb n (NodeData.nodeId d) then NodeData.isAnomaly d
    else lastAnomalous ds n.
Proof. unfold lastAnomalous. now rewrite fold_left_app. Qed.

Lemma pollAlert_has (d : NodeData.t) (st : AlertState) (n : string) :
  setHas (previousAnomalies (pollAlert d st)) n
  = if String.eqb n (NodeData.nodeId d) then NodeData.isAnomaly d
    else setHas (previousAnomalies st) n.
Proof.
  unfold pollAlert, triggerAnomalyEffects.
  destruct (NodeData.isAnomaly d) eqn:Ea; cbn [negb andb].
  - destruct (setHas (previousAnomalies st) (NodeData.nodeId d)) eqn:Eh;
      cbn [negb previousAnomalies].
    + destruct (String.eqb n (NodeData.nodeId d)) eqn:En; [|reflexivity].
      apply String.eqb_eq in En. now subst n.
    + rewrite setHas_add. destruct (String.eqb n (NodeData.nodeId d)); reflexivity.
  - cbn [previousAnomalies]. rewrite setHas_delete.
    destruct (String.eqb n (NodeData.nodeId d)); reflexivity.
Qed.

Lemma trigger_has (d : NodeData.t) (st : AlertState) (n : string) :
  NodeData.isAnomaly d = true ->
  setHas (previousAnomalies (triggerAnomalyEffects d st)) n
  = if String.eqb n (NodeData.nodeId d) then NodeData.isAnomaly d
    else setHas (previousAnomalies st) n.
Proof.
  intros Ha. unfold triggerAnomalyEffects. cbn [previousAnomalies].
  rewrite setHas_add, Ha.
  destruct (String.eqb n (NodeData.nodeId d)); reflexivity.
Qed.

Lemma runAlerts_has (events : list LogEvent) (n : string) :
  setHas (previousAnomalies (runAlerts events)) n
  = lastAnomalous (flat_map eventData events) n.
Proof.
  unfold runAlerts.
  induction events as [|e events IH] using rev_ind.
  - reflexivity.
  - rewrite fold_left_app, flat_map_app. cbn [fold_left flat_map].
    rewrite app_nil_r. destruct e as [d1 d2 | sel now]; cbn [alertStep eventData].
    + change [d1; d2] with ([d1] ++ [d2]). rewrite app_assoc.
      rewrite !lastAnomalous_app, !pollAlert_has, IH. reflexivity.
    + rewrite lastAnomalous_app, trigger_has by reflexivity.
      rewrite IH. reflexivity.
Qed.

(** X9: the initial load records nothing in the set of flagged nodes,
    whatever its readings are.  From then on the set holds exactly the
    nodes whose most recent reading from a polling tick or from the
    crisis key is an anomaly.  So in a polling tick a reading raises
    the alert exactly when it is an anomaly and the node has had no
    reading from a tick or the crisis key since the load, or its last
    such reading was no anomaly: a node that the load itself found
    anomalous alerts at its first anomalous tick. *)
Theorem alerts_are_edge_triggered (initialData : list NodeData.t)
    (events : list LogEvent) (newData : NodeData.t) :
  previousAnomalies (runAppAlerts initialData []) = []
  /\ alerts (runAppAlerts initialData []) = []
  /\ (forall n : string,
         setHas (previousAnomalies (runAppAlerts initialData events)) n
         = lastAnomalous (flat_map eventData events) n)
  /\ alerts (pollAlert newData (runAppAlerts initialData events))
     = if NodeData.isAnomaly newData
          && negb (lastAnomalous (flat_map eventData events)
                                 (NodeData.nodeId newData))
       then alerts (runAppAlerts initialData events) ++ [newData]
       else alerts (runAppAlerts initialData events).
Proof.
  split; [reflexivity|]. split; [reflexivity|].
  change (runAppAlerts initialData events) with (runAlerts events).
  split; [intros n; apply runAlerts_has|].
  rewrite <- runAlerts_has. unfold pollAlert, triggerAnomalyEffects, push.
  destruct (NodeData.isAnomaly newData); cbn [andb negb].
  - destruct (setHas (previousAnomalies (runAlerts events))
                     (NodeData.nodeId newData)); reflexivity.
  - reflexivity.
Qed.

(** A node that is anomalous at the initial load alerts at its first
    anomalous tick. *)
Example anomaly_of_the_load_alerts_at_first_tick :
  let hot := crisisData sampleNode 1 in
  NodeData.isAnomaly hot = true
  /\ List.length (alerts (runAppAlerts [hot] [PollTick hot hot])) = 1%nat.
Proof. split; vm_compute; reflexivity. Qed.

(** An anomaly that persists over two ticks alerts once. *)
Example persistent_anomaly_alerts_once :
  let hot := crisisData sampleNode 1 in
  List.length (alerts (runAlerts [PollTick hot hot; PollTick hot hot])) = 1%nat.
Proof. vm_compute. reflexivity. Qed.

(** X10: while every node of the map comes from the mock generator or
    the crisis demo, the header's critical marker is lit exactly when
    some node is flagged as an anomaly. *)
Theorem global_critical_iff_anomaly (nodes : list NodeData.t) :
  Forall (fun d =>
            (exists nodeId coordinates r1 r2 r3 r4 now,
                d = generateMockNodeData nodeId coordinates r1 r2 r3 r4 now)
            \/ (exists selectedNode now, d = crisisData selectedNode now)) nodes ->
  isGlobalCritical nodes = existsb NodeData.isAnomaly nodes.
Proof.
  unfold isGlobalCritical. induction 1 as [|d nodes Hd _ IH]; [reflexivity|].
  cbn [existsb]. rewrite IH. f_equal.
  destruct Hd as [(nodeId & co & r1 & r2 & r3 & r4 & now & ->)
                 | (sel & now & ->)].
  - unfold generateMockNodeData.
    destruct (mock_flag nodeId co (mockSensors r1 r2 r3 r4) now) as [Hflag _].
    cbv zeta in Hflag. symmetry. exact Hflag.
  - reflexivity.
Qed.

Lemma global_critical_iff_anomaly_witness :
  isGlobalCritical
    [generateMockNodeData "CP-MOH-01" (76.6934, 30.7046) 0 0 0 0 0;
     crisisData sampleNode 1]
  = existsb NodeData.isAnomaly
      [generateMockNodeData "CP-MOH-01" (76.6934, 30.7046) 0 0 0 0 0;
       crisisData sampleNode 1].
Proof.
  apply global_critical_iff_anomaly.
  constructor; [|constructor; [|constructor]].
  - left. exists "CP-MOH-01", (76.6934, 30.7046), 0, 0, 0, 0, 0%Z. reflexivity.
  - right. exists sampleNode, 1%Z. reflexivity.
Defined.

(** ** The fallback detector, threshold by threshold *)

Ltac by_thresholds reading :=
  unfold fallbackAnomalyDetection, signalTags, expectedSignals, push;
  destruct (Qgtb (Reading.noise reading) 85) eqn:Enoise;
  destruct (Qgtb (Reading.temperature reading) 35) eqn:Eheat;
  destruct (Qgtb (Reading.air_quality reading) 120) eqn:Eair;
  destruct (Qgtb (Reading.crowd_density reading) 25) eqn:Ecrowd;
  destruct (Qle_bool (Reading.stress_index reading) 80) eqn:Estress;
  unfold Qgtb in *; rewrite ?Estress; cbn.

Ltac thresholds_to_props :=
  repeat match goal with
         | H : negb (Qle_bool _ _) = true |- _ =>
             rewrite negb_true_iff in H; apply Qle_bool_false in H
         | H : negb (Qle_bool _ _) = false |- _ =>
             rewrite negb_false_iff in H; apply Qle_bool_iff in H
         | H : Qle_bool _ _ = true |- _ => apply Qle_bool_iff in H
         | H : Qle_bool _ _ = false |- _ => apply Qle_bool_false in H
         end.

Section DetectorByThresholds.

Variable toString : Q -> string.

(** X11: the detector reports an anomaly exactly when one of the five
    tests on the reading succeeds: noise above 85, temperature above
    35, air quality above 120, crowd above 25, stress index above 80. *)
Theorem anomaly_iff_some_threshold (reading : Reading.t) :
  Detection.is_anomaly (fallbackAnomalyDetection toString reading) = true
  <-> 85 < Reading.noise reading \/ 35 < Reading.temperature reading
      \/ 120 < Reading.air_quality reading \/ 25 < Reading.crowd_density reading
      \/ 80 < Reading.stress_index reading.
Proof.
  by_thresholds reading; thresholds_to_props;
    (split; [intros H; try discriminate H; tauto
            | intros H; try reflexivity; exfalso; lra]).
Qed.

(** X12: the signals of an anomalous result are the fired thresholds in
    the fixed order noise, heat, air_quality, crowd, followed by
    composite when the stress index is above 80 and none of the first
    three fired; no tag occurs twice. *)
Theorem anomalous_signals (reading : Reading.t) :
  Detection.is_anomaly (fallbackAnomalyDetection toString reading) = true ->
  Detection.signals (fallbackAnomalyDetection toString reading)
  = Some (expectedSignals reading)
  /\ NoDup (expectedSignals reading).
Proof.
  by_thresholds reading; intros H; try discriminate H;
    (split; [reflexivity|]);
    repeat constructor; cbn; intuition discriminate.
Qed.

(** X13: an anomalous result has the empty string as explanation
    exactly when neither noise, heat nor air quality fired and the
    stress index is at most 80, that is, when crowd alone made it an
    anomaly. *)
Theorem explanation_empty_iff (reading : Reading.t) :
  Detection.is_anomaly (fallbackAnomalyDetection toString reading) = true ->
  (Detection.explanation (fallbackAnomalyDetection toString reading) = Some ""
   <-> Reading.noise reading <= 85 /\ Reading.temperature reading <= 35
       /\ Reading.air_quality reading <= 120
       /\ Reading.stress_index reading <= 80
       /\ 25 < Reading.crowd_density reading).
Proof.
  by_thresholds reading; intros H; try discriminate H; thresholds_to_props;
    (split; [intros H'; try discriminate H'; repeat split; assumption
            | intros H'; try reflexivity; exfalso; lra]).
Qed.

(** X14: the multi-sensor explanation and the composite tag always come
    together. *)
Theorem composite_explanation_iff_tag (reading : Reading.t) :
  Detection.explanation (fallbackAnomalyDetection toString reading)
  = Some "Multi-sensor correlation indicates urban stress anomaly"
  <-> includes (signalTags (fallbackAnomalyDetection toString reading))
               "composite" = true.
Proof.
  by_thresholds reading; split; intros H; try reflexivity; discriminate H.
Qed.

End DetectorByThresholds.

Lemma anomaly_iff_some_threshold_witness :
  Detection.is_anomaly
    (fallbackAnomalyDetection (fun _ => "") (Reading.mk 60 25 80 28 55)) = true.
Proof.
  apply (anomaly_iff_some_threshold (fun _ => "") (Reading.mk 60 25 80 28 55)).
  right. right. right. left. unfold Qlt. simpl. lia.
Defined.

Lemma anomalous_signals_witness :
  Detection.signals
    (fallbackAnomalyDetection (fun _ => "") (Reading.mk 90 36 80 28 85))
  = Some (expectedSignals (Reading.mk 90 36 80 28 85)).
Proof.
  apply (anomalous_signals (fun _ => "") (Reading.mk 90 36 80 28 85)).
  reflexivity.
Defined.

Lemma explanation_empty_iff_witness :
  Detection.explanation
    (fallbackAnomalyDetection (fun _ => "") (Reading.mk 60 25 80 28 55)) = Some "".
Proof.
  apply (explanation_empty_iff (fun _ => "") (Reading.mk 60 25 80 28 55));
    [reflexivity|].
  repeat split; unfold Qle, Qlt; simpl; lia.
Defined.



(** The score of a numeric anomalous reading. *)
Example anomaly_score_values :
  Raw.Detection.anomaly_score
    (Raw.fallbackAnomalyDetection (fun _ => "")
       (rawReading (Reading.mk 90 20 50 5 130)))
  = Some (JS.Fin 0.99)
  /\ Raw.Detection.anomaly_score
       (Raw.fallbackAnomalyDetection (fun _ => "")
          (rawReading (Reading.mk 90 20 50 5 30)))
     = Some (JS.Fin (30 / 100)).
Proof. split; reflexivity. Qed.

Example tags_in_order :
  expectedSignals (Reading.mk 90 36 130 28 85)
  = ["noise"; "heat"; "air_quality"; "crowd"]
  /\ expectedSignals (Reading.mk 60 25 80 28 85) = ["crowd"; "composite"].
Proof. split; reflexivity. Qed.

(** ** The shape of a forecast *)

Lemma qround_ge_half (x : Q) (z : Z) : inject_Z z - 0.5 <= x -> (z <= JS.qround x)%Z.
Proof.
  intros H. pose proof (qround_lower x) as L.
  assert (inject_Z z < inject_Z (JS.qround x + 1)) as Hlt.
  { rewrite inject_Z_plus. change (inject_Z 1) with 1. lra. }
  rewrite <- Zlt_Qlt in Hlt. lia.
Qed.

Lemma qround_le_half (x : Q) (z : Z) : x < inject_Z z + 0.5 -> (JS.qround x <= z)%Z.
Proof.
  intros H. pose proof (qround_upper x) as U.
  assert (inject_Z (JS.qround x) < inject_Z (z + 1)) as Hlt.
  { rewrite inject_Z_plus. change (inject_Z 1) with 1. lra. }
  rewrite <- Zlt_Qlt in Hlt. lia.
Qed.

Lemma minuteGrid_S (k : nat) :
  minuteGrid (S k) = minuteGrid k ++ [(15 * Z.of_nat k)%Z].
Proof. unfold minuteGrid. rewrite seq_S, map_app. reflexivity. Qed.

Section SeriesShape.

Variable random : nat -> Q.
Variable clock : nat -> Z.
Variable getHours : Z -> Z.

Lemma loopReaches_shape (now horizon : Z) (w : World) (st : LoopState) :
  loopReaches random getHours now horizon (initialLoop random w) st ->
  loopShape now horizon st.
Proof.
  induction 1 as [|st Hreach (Hi & Hgrid & Hts & Hlast) Hle].
  - unfold loopShape, initialLoop. cbn. repeat split; auto. congruence.
  - unfold loopShape, loopBody, push.
    cbn [loop_i forecast].
    rewrite length_app, map_app, Nat.add_1_r, minuteGrid_S, Hgrid.
    cbn [List.length map ForecastPoint.minutes_ahead].
    repeat split.
    + lia.
    + now rewrite Hi.
    + apply Forall_app. split; [exact Hts|]. constructor; [reflexivity|constructor].
    + intros _. lia.
Qed.

Lemma forecastNode_seriesOfLoop (nid : string) (horizon : Z) (w w' : World)
    (f : NodeForecast.t) :
  forecastNode random clock getHours nid horizon w = Some (f, w') ->
  seriesOfLoop random getHours horizon f /\ NodeForecast.node_id f = nid.
Proof.
  unfold forecastNode, seriesOfLoop.
  destruct (forecast (forLoop random getHours (loopFuel horizon)
                              (clock (dates w)) horizon (initialLoop random w)))
    as [|first rest] eqn:E; [discriminate|].
  intros Heq. injection Heq as <- _. split; [|reflexivity].
  exists (clock (dates w)), w, first, rest. cbv zeta.
  cbn [NodeForecast.forecast NodeForecast.node_name NodeForecast.node_id
       NodeForecast.trend].
  rewrite E. auto.
Qed.

Lemma mapNodes_seriesOfLoop (nodes : list string) (horizon : Z) (w w' : World)
    (fs : list NodeForecast.t) :
  mapNodes random clock getHours nodes horizon w = Some (fs, w') ->
  Forall (seriesOfLoop random getHours horizon) fs /\ map NodeForecast.node_id fs = nodes.
Proof.
  revert w w' fs. induction nodes as [|nid nodes IH]; intros w w' fs; cbn [mapNodes].
  - intros H. injection H as <- _. split; [constructor | reflexivity].
  - destruct (forecastNode random clock getHours nid horizon w)
      as [[f w1]|] eqn:Ef; [|discriminate].
    destruct (mapNodes random clock getHours nodes horizon w1)
      as [[fs' w2]|] eqn:Em; [|discriminate].
    intros H. injection H as <- _.
    destruct (forecastNode_seriesOfLoop _ _ _ _ _ Ef) as [Hf Hid].
    destruct (IH _ _ _ Em) as [Hfs Hids].
    split; [now constructor|]. cbn [map]. now rewrite Hid, Hids.
Qed.

Lemma fallbackForecast_seriesOfLoop (nodeId : option string) (horizon : Z)
    (w : World) (res : ForecastResult) :
  fallbackForecast random clock getHours nodeId horizon w = Some res ->
  Forall (seriesOfLoop random getHours horizon) (seriesOf res)
  /\ map NodeForecast.node_id (seriesOf res)
     = match truthy nodeId with Some nid => [nid] | None => allNodeIds end.
Proof.
  unfold fallbackForecast. intros Hres.
  destruct (mapNodes random clock getHours _ horizon w) as [[fs w']|] eqn:Em;
    [|discriminate].
  apply mapNodes_seriesOfLoop in Em. destruct Em as [Hfs Hids].
  destruct (truthy nodeId) as [nid|].
  - destruct fs as [|f fs]; [discriminate|].
    injection Hres as <-. cbn [seriesOf].
    destruct fs; [|discriminate Hids]. split; assumption.
  - injection Hres as <-. cbn [seriesOf]. split; assumption.
Qed.

(** X16: for a horizon that is not negative every series has exactly
    horizon/15 + 1 points, at the minutes 0, 15, 30, ... in this order,
    the last within the horizon, and each point is stamped with the
    start instant plus its minutes. *)
Theorem forecast_series_grid (nodeId : option string) (horizon : Z) (w : World)
    (res : ForecastResult) (series : NodeForecast.t) :
  (0 <= horizon)%Z ->
  fallbackForecast random clock getHours nodeId horizon w = Some res ->
  In series (seriesOf res) ->
  List.length (NodeForecast.forecast series) = Z.to_nat (horizon / 15 + 1)
  /\ map ForecastPoint.minutes_ahead (NodeForecast.forecast series)
     = minuteGrid (Z.to_nat (horizon / 15 + 1))
  /\ exists now : Z,
      Forall (fun p => ForecastPoint.timestamp p
                       = (now + ForecastPoint.minutes_ahead p * 60 * 1000)%Z)
             (NodeForecast.forecast series).
Proof.
  intros Hh Hres Hin.
  destruct (fallbackForecast_seriesOfLoop _ _ _ _ Hres) as [Hall _].
  rewrite Forall_forall in Hall.
  destruct (Hall series Hin) as (now & w0 & first & rest & Hf & Hne & _ & _).
  cbv zeta in Hf, Hne.
  pose proof (forLoop_reaches random getHours (loopFuel horizon) now horizon
                (initialLoop random w0) (initialLoop random w0)
                (reaches_start _ _ _ _ _)) as Hreach.
  apply loopReaches_shape in Hreach.
  destruct Hreach as (Hi & Hgrid & Hts & Hlast).
  pose proof (forLoop_terminates random getHours now horizon w0) as Hexit.
  rewrite <- Hf in Hi, Hgrid, Hts.
  assert (List.length (NodeForecast.forecast series)
          = Z.to_nat (horizon / 15 + 1)) as Hlen.
  { assert (loop_i (forLoop random getHours (loopFuel horizon) now horizon
                            (initialLoop random w0)) - 15 <= horizon)%Z as Hl
        by (apply Hlast; rewrite Hne; discriminate).
    pose proof (Z.div_mod horizon 15). pose proof (Z.mod_pos_bound horizon 15).
    lia. }
  split; [exact Hlen|]. split; [now rewrite <- Hlen|].
  exists now. exact Hts.
Qed.

(** X19: the call fails on every negative horizon: the loop pushes no
    point and the trend reads a field of [undefined]. *)
Theorem negative_horizon_throws (nodeId : option string) (horizon : Z) (w : World) :
  (horizon < 0)%Z ->
  fallbackForecast random clock getHours nodeId horizon w = None.
Proof.
  intros Hh.
  assert (loopFuel horizon = 0%nat) as Hfuel.
  { unfold loopFuel.
    pose proof (Z.div_mod horizon 15). pose proof (Z.mod_pos_bound horizon 15).
    lia. }
  assert (forall nid w0, forecastNode random clock getHours nid horizon w0 = None)
    as Hnode.
  { intros nid w0. unfold forecastNode. rewrite Hfuel. reflexivity. }
  unfold fallbackForecast.
  destruct (truthy nodeId); cbn [mapNodes]; now rewrite Hnode.
Qed.

End SeriesShape.

(** ** What a forecast predicts *)

Lemma derived_predictions_bounds (stress : Z) (r : Q) :
  (26 <= stress <= 73)%Z -> 0 <= r -> r < 1 ->
  (63 <= JS.qround (55 + inject_Z stress * 0.3) <= 77)%Z
  /\ (25 <= JS.qround (25 + r * 5) <= 30)%Z
  /\ (70 <= JS.qround (60 + inject_Z stress * 0.4) <= 89)%Z
  /\ (9 <= JS.qround (5 + inject_Z stress * 0.15) <= 16)%Z.
Proof.
  intros Hs Hr0 Hr1.
  destruct (inject_Z_between stress 26 73 Hs) as [H1 H2].
  change (inject_Z 26) with 26 in H1. change (inject_Z 73) with 73 in H2.
  repeat split;
    first [ apply qround_ge_half | apply qround_le_half ];
    match goal with
    | |- context [inject_Z ?k - _] => change (inject_Z k) with (k # 1)
    | |- context [inject_Z ?k + _] => change (inject_Z k) with (k # 1)
    end; lra.
Qed.

Lemma pointInRange_not_anomalous (toString : Q -> string) (p : ForecastPoint.t) :
  pointInRange p ->
  fallbackAnomalyDetection toString (readingOfPoint p)
  = Detection.mk false None None None.
Proof.
  intros (Hs & Hn & Ht & Ha & Hc).
  unfold fallbackAnomalyDetection, readingOfPoint, push.
  cbn [Reading.noise Reading.temperature Reading.air_quality
       Reading.crowd_density Reading.stress_index].
  assert (Qgtb (inject_Z (ForecastPoint.predicted_noise p)) 85 = false) as ->.
  { apply Qgtb_false. change 85 with (inject_Z 85). rewrite <- Zle_Qle. lia. }
  assert (Qgtb (inject_Z (ForecastPoint.predicted_temp p)) 35 = false) as ->.
  { apply Qgtb_false. change 35 with (inject_Z 35). rewrite <- Zle_Qle. lia. }
  assert (Qgtb (inject_Z (ForecastPoint.predicted_aqi p)) 120 = false) as ->.
  { apply Qgtb_false. change 120 with (inject_Z 120). rewrite <- Zle_Qle. lia. }
  assert (Qgtb (inject_Z (ForecastPoint.predicted_crowd p)) 25 = false) as ->.
  { apply Qgtb_false. change 25 with (inject_Z 25). rewrite <- Zle_Qle. lia. }
  assert (Qle_bool (inject_Z (ForecastPoint.predicted_stress p)) 80 = true) as ->.
  { apply Qle_bool_iff. change 80 with (inject_Z 80). rewrite <- Zle_Qle. lia. }
  reflexivity.
Qed.

Section SeriesValues.

Variable random : nat -> Q.
Variable clock : nat -> Z.
Variable getHours : Z -> Z.

Hypothesis random_range : forall k, 0 <= random k /\ random k < 1.

Lemma loopReaches_pointInRange (now horizon : Z) (w : World) (st : LoopState) :
  loopReaches random getHours now horizon (initialLoop random w) st ->
  Forall pointInRange (forecast st).
Proof.
  induction 1 as [|st Hreach IH Hle].
  - constructor.
  - destruct (loopReaches_prevStress random getHours random_range
                now horizon w st Hreach) as [Hlo Hhi].
    destruct (random_range (loop_randoms st)) as [Hr0 Hr1].
    destruct (random_range (S (loop_randoms st))) as [Hr0' Hr1'].
    pose proof (nextStress_bounds
                  (getHours (now + loop_i st * 60 * 1000)%Z)
                  (prevStress st) (random (loop_randoms st))
                  Hlo Hhi Hr0 Hr1) as Hs.
    unfold loopBody, push. cbn [forecast].
    apply Forall_app. split; [exact IH|]. constructor; [|constructor].
    unfold pointInRange.
    cbn [ForecastPoint.predicted_stress ForecastPoint.predicted_noise
         ForecastPoint.predicted_temp ForecastPoint.predicted_aqi
         ForecastPoint.predicted_crowd].
    rewrite (clamp_identity _ Hs).
    split; [exact Hs|].
    apply (derived_predictions_bounds _ (random (S (loop_randoms st))) Hs Hr0' Hr1').
Qed.

Lemma seriesOfLoop_pointInRange (horizon : Z) (series : NodeForecast.t) :
  seriesOfLoop random getHours horizon series ->
  Forall pointInRange (NodeForecast.forecast series).
Proof.
  intros (now & w0 & first & rest & Hf & _). cbv zeta in Hf. rewrite Hf.
  apply (loopReaches_pointInRange now horizon w0).
  apply forLoop_reaches, reaches_start.
Qed.

(** X17: with [Math.random()] in [0, 1), every point of every series
    predicts stress in [26, 73], noise in [63, 77], temperature in
    [25, 30], air quality in [70, 89] and crowd in [9, 16]. *)
Theorem forecast_values_bounded (nodeId : option string) (horizon : Z) (w : World)
    (res : ForecastResult) (series : NodeForecast.t) (p : ForecastPoint.t) :
  fallbackForecast random clock getHours nodeId horizon w = Some res ->
  In series (seriesOf res) ->
  In p (NodeForecast.forecast series) ->
  pointInRange p.
Proof.
  intros Hres Hseries Hp.
  destruct (fallbackForecast_seriesOfLoop random clock getHours _ _ _ _ Hres)
    as [Hall _].
  rewrite Forall_forall in Hall.
  pose proof (seriesOfLoop_pointInRange horizon series (Hall series Hseries)) as H.
  rewrite Forall_forall in H. now apply H.
Qed.

(** X18: the fallback forecast never predicts an anomaly: read as a
    sensor reading, each of its points passes the fallback detector
    with the result [{ is_anomaly: false }]. *)
Theorem forecast_never_anomalous (toString : Q -> string)
    (nodeId : option string) (horizon : Z) (w : World)
    (res : ForecastResult) (series : NodeForecast.t) (p : ForecastPoint.t) :
  fallbackForecast random clock getHours nodeId horizon w = Some res ->
  In series (seriesOf res) ->
  In p (NodeForecast.forecast series) ->
  fallbackAnomalyDetection toString (readingOfPoint p)
  = Detection.mk false None None None.
Proof.
  intros Hres Hseries Hp. apply pointInRange_not_anomalous.
  destruct (fallbackForecast_seriesOfLoop random clock getHours _ _ _ _ Hres)
    as [Hall _].
  rewrite Forall_forall in Hall.
  pose proof (seriesOfLoop_pointInRange horizon series (Hall series Hseries)) as H.
  rewrite Forall_forall in H. now apply H.
Qed.

End SeriesValues.

(** ** Trend and node names *)

Lemma classifyTrend_cases (first last : ForecastPoint.t) :
  let delta := (ForecastPoint.predicted_stress last
                - ForecastPoint.predicted_stress first)%Z in
  (classifyTrend first last = "increasing" <-> (8 < delta)%Z)
  /\ (classifyTrend first last = "decreasing" <-> (delta < -8)%Z)
  /\ (classifyTrend first last = "stable" <-> (-8 <= delta <= 8)%Z).
Proof.
  cbv zeta. unfold classifyTrend.
  destruct (Z.gtb_spec (ForecastPoint.predicted_stress last
                        - ForecastPoint.predicted_stress first) 8);
    [|destruct (Z.gtb_spec (ForecastPoint.predicted_stress first
                            - ForecastPoint.predicted_stress last) 8)];
    (split; [|split]);
    (split; intros Hx; try reflexivity; try discriminate Hx;
     first [lia | exfalso; lia]).
Qed.

Section SeriesTrend.

Variable random : nat -> Q.
Variable clock : nat -> Z.
Variable getHours : Z -> Z.

(** X20: the trend of a series compares its last point with its first:
    "increasing" when the predicted stress rose by more than 8,
    "decreasing" when it fell by more than 8, "stable" otherwise; a
    horizon below 15 gives a single point and so always "stable". *)
Theorem forecast_trend (nodeId : option string) (horizon : Z) (w : World)
    (res : ForecastResult) (series : NodeForecast.t) :
  fallbackForecast random clock getHours nodeId horizon w = Some res ->
  In series (seriesOf res) ->
  exists first : ForecastPoint.t,
    hd_error (NodeForecast.forecast series) = Some first
    /\ let delta :=
         (ForecastPoint.predicted_stress
            (last (NodeForecast.forecast series) first)
          - ForecastPoint.predicted_stress first)%Z in
       (NodeForecast.trend series = "increasing" <-> (8 < delta)%Z)
       /\ (NodeForecast.trend series = "decreasing" <-> (delta < -8)%Z)
       /\ (NodeForecast.trend series = "stable" <-> (-8 <= delta <= 8)%Z)
       /\ ((horizon < 15)%Z -> NodeForecast.trend series = "stable").
Proof.
  intros Hres Hin.
  destruct (fallbackForecast_seriesOfLoop random clock getHours _ _ _ _ Hres)
    as [Hall _].
  rewrite Forall_forall in Hall.
  destruct (Hall series Hin) as (now & w0 & first & rest & Hf & Hne & _ & Htrend).
  cbv zeta in Hf, Hne, Htrend.
  exists first. rewrite <- Hf in Htrend, Hne. rewrite Hne at 1.
  split; [reflexivity|]. cbv zeta. rewrite Htrend.
  destruct (classifyTrend_cases first (last (NodeForecast.forecast series) first))
    as (Hinc & Hdec & Hst).
  split; [exact Hinc|]. split; [exact Hdec|]. split; [exact Hst|].
  intros Hh.
  pose proof (forLoop_reaches random getHours (loopFuel horizon) now horizon
                (initialLoop random w0) (initialLoop random w0)
                (reaches_start _ _ _ _ _)) as Hreach.
  apply loopReaches_shape in Hreach. destruct Hreach as (Hi & _ & _ & Hlast).
  rewrite <- Hf in Hi, Hlast.
  assert (rest = []) as ->.
  { rewrite Hne in Hi, Hlast. cbn [List.length] in Hi.
    destruct rest; [reflexivity|]. cbn [List.length] in Hi.
    assert (first :: t :: rest <> []) as Hnil by discriminate.
    apply Hlast in Hnil. lia. }
  rewrite Hne in Hst |- *. cbn [last] in Hst |- *. apply Hst. lia.
Qed.

(** X21: for a horizon that is not negative the call returns; without
    a node id, or with the empty string as node id, it returns the
    five series of node_1 .. node_5 in this order, each under its
    place name; with a node id it returns the one series of that
    node. *)
Theorem forecast_nodes (nodeId : option string) (horizon : Z) (w : World) :
  (0 <= horizon)%Z ->
  exists res : ForecastResult,
    fallbackForecast random clock getHours nodeId horizon w = Some res
    /\ (nodeId = None \/ nodeId = Some "" ->
        exists fs, res = AllNodes fs
                   /\ map NodeForecast.node_id fs = allNodeIds
                   /\ map NodeForecast.node_name fs = allNodeNames)
    /\ (forall nid, nodeId = Some nid -> nid <> "" ->
        exists f, res = OneNode f /\ NodeForecast.node_id f = nid).
Proof.
  intros Hh.
  destruct (fallbackForecast_returns random clock getHours nodeId horizon w Hh)
    as [res Hres].
  exists res. split; [exact Hres|].
  destruct (fallbackForecast_seriesOfLoop random clock getHours _ _ _ _ Hres)
    as [Hall Hids].
  split.
  - intros Hnone.
    assert (truthy nodeId = None) as Ht by (destruct Hnone as [-> | ->]; reflexivity).
    rewrite Ht in Hids.
    unfold fallbackForecast in Hres. rewrite Ht in Hres.
    destruct (mapNodes random clock getHours _ horizon w) as [[fs w']|];
      [|discriminate].
    injection Hres as <-. cbn [seriesOf] in Hall, Hids.
    exists fs. split; [reflexivity|]. split; [exact Hids|].
    assert (map NodeForecast.node_name fs
            = map getNodeName (map NodeForecast.node_id fs)) as Hnames.
    { clear Hids. induction Hall as [|f fs Hf _ IH]; [reflexivity|].
      destruct Hf as (_ & _ & _ & _ & _ & _ & Hname & _).
      cbn [map]. now rewrite Hname, IH. }
    rewrite Hnames, Hids. reflexivity.
  - intros nid -> Hnid.
    assert (truthy (Some nid) = Some nid) as Ht.
    { cbn. destruct (String.eqb_spec nid ""); [contradiction|reflexivity]. }
    rewrite Ht in Hids.
    unfold fallbackForecast in Hres. rewrite Ht in Hres.
    destruct (mapNodes random clock getHours _ horizon w) as [[fs w']|];
      [|discriminate].
    destruct fs as [|f fs]; [discriminate|].
    injection Hres as <-. cbn [seriesOf map] in Hids.
    exists f. split; [reflexivity|]. now injection Hids.
Qed.

End SeriesTrend.

(** ** The further properties on the sample inputs *)

Lemma sampleResult_eq :
  fallbackForecast sampleRandom sampleClock sampleHours (Some "node_1") 60
                   sampleWorld = Some (OneNode sampleSeries).
Proof. vm_compute. reflexivity. Qed.

Lemma forecast_series_grid_witness :
  List.length (NodeForecast.forecast sampleSeries) = 5%nat.
Proof.
  apply (forecast_series_grid sampleRandom sampleClock sampleHours
           (Some "node_1") 60 sampleWorld (OneNode sampleSeries) sampleSeries).
  - vm_compute. discriminate.
  - vm_compute. reflexivity.
  - left. reflexivity.
Defined.

Lemma negative_horizon_throws_witness :
  fallbackForecast sampleRandom sampleClock sampleHours None (-15) sampleWorld
  = None.
Proof.
  apply negative_horizon_throws. reflexivity.
Defined.

Lemma forecast_values_bounded_witness : pointInRange (samplePoint 2).
Proof.
  apply (forecast_values_bounded sampleRandom sampleClock sampleHours
           sampleRandom_range (Some "node_1") 60 sampleWorld
           (OneNode sampleSeries) sampleSeries (samplePoint 2)).
  - vm_compute. reflexivity.
  - left. reflexivity.
  - vm_compute. auto 10.
Defined.

Lemma forecast_never_anomalous_witness :
  fallbackAnomalyDetection (fun _ => "") (readingOfPoint (samplePoint 4))
  = Detection.mk false None None None.
Proof.
  apply (forecast_never_anomalous sampleRandom sampleClock sampleHours
           sampleRandom_range (fun _ => "") (Some "node_1") 60 sampleWorld
           (OneNode sampleSeries) sampleSeries (samplePoint 4)).
  - vm_compute. reflexivity.
  - left. reflexivity.
  - vm_compute. auto 10.
Defined.

Lemma forecast_trend_witness :
  exists first : ForecastPoint.t,
    hd_error (NodeForecast.forecast sampleSeries) = Some first
    /\ let delta :=
         (ForecastPoint.predicted_stress
            (last (NodeForecast.forecast sampleSeries) first)
          - ForecastPoint.predicted_stress first)%Z in
       (NodeForecast.trend sampleSeries = "increasing" <-> (8 < delta)%Z)
       /\ (NodeForecast.trend sampleSeries = "decreasing" <-> (delta < -8)%Z)
       /\ (NodeForecast.trend sampleSeries = "stable" <-> (-8 <= delta <= 8)%Z)
       /\ ((60 < 15)%Z -> NodeForecast.trend sampleSeries = "stable").
Proof.
  apply (forecast_trend sampleRandom sampleClock sampleHours
           (Some "node_1") 60 sampleWorld (OneNode sampleSeries) sampleSeries).
  - vm_compute. reflexivity.
  - left. reflexivity.
Defined.

Lemma forecast_nodes_witness :
  exists res : ForecastResult,
    fallbackForecast sampleRandom sampleClock sampleHours (Some "") 30 sampleWorld
    = Some res
    /\ (Some "" = None \/ Some "" = Some "" ->
        exists fs, res = AllNodes fs
                   /\ map NodeForecast.node_id fs = allNodeIds
                   /\ map NodeForecast.node_name fs = allNodeNames)
    /\ (forall nid, Some "" = Some nid -> nid <> "" ->
        exists f, res = OneNode f /\ NodeForecast.node_id f = nid).
Proof.
  apply (forecast_nodes sampleRandom sampleClock sampleHours (Some "") 30
                        sampleWorld).
  vm_compute. discriminate.
Defined.

(** ** Colours and labels follow the numbers *)

Lemma gt_antitone (v v' k : Q) :
  v <= v' -> JS.gt (JS.Fin v) (JS.Fin k) = true -> JS.gt (JS.Fin v') (JS.Fin k) = true.
Proof.
  unfold JS.gt. rewrite !negb_true_iff, !Qle_bool_false. intros; lra.
Qed.

Lemma ge_antitone (v v' k : Q) :
  v <= v' -> JS.ge (JS.Fin v) (JS.Fin k) = true -> JS.ge (JS.Fin v') (JS.Fin k) = true.
Proof.
  unfold JS.ge. rewrite !Qle_bool_iff. intros; lra.
Qed.

Ltac rank_two_steps v v' hi lo Hle :=
  destruct (JS.gt (JS.Fin v) (JS.Fin hi)) eqn:Ehi;
  [ rewrite (gt_antitone v v' hi Hle Ehi); cbn; lia |];
  destruct (JS.gt (JS.Fin v) (JS.Fin lo)) eqn:Elo;
  [ rewrite (gt_antitone v v' lo Hle Elo);
    destruct (JS.gt (JS.Fin v') (JS.Fin hi)); cbn; lia |];
  destruct (JS.gt (JS.Fin v') (JS.Fin hi));
  [ cbn; lia |];
  destruct (JS.gt (JS.Fin v') (JS.Fin lo)); cbn; lia.

(** X22: colours never calm down as a value rises: for every sensor
    type of the panel, for the stress colour of the panel and for the
    node colour of the map, a larger number gets a colour at least as
    severe (cyan, amber, red). *)
Theorem colours_monotone (v v' : Q) :
  v <= v' ->
  (forall sensorType : string,
      (colourRank (getSensorColor sensorType (JS.Fin v))
       <= colourRank (getSensorColor sensorType (JS.Fin v')))%nat)
  /\ (colourRank (getStressColor (JS.Fin v))
      <= colourRank (getStressColor (JS.Fin v')))%nat
  /\ (forall node node' : NodeData.t,
         NodeData.stressIndex node = JS.Fin v ->
         NodeData.stressIndex node' = JS.Fin v' ->
         (colourRank (getNodeColor node) <= colourRank (getNodeColor node'))%nat).
Proof.
  intros Hle. split; [|split].
  - intros sensorType. unfold getSensorColor.
    destruct (String.eqb sensorType "noise"); [rank_two_steps v v' 80 65 Hle|].
    destruct (String.eqb sensorType "temp"); [rank_two_steps v v' 34 28 Hle|].
    destruct (String.eqb sensorType "airQuality");
      [rank_two_steps v v' 100 60 Hle|].
    destruct (String.eqb sensorType "crowd"); [rank_two_steps v v' 20 12 Hle|].
    cbn. lia.
  - unfold getStressColor.
    destruct (JS.ge (JS.Fin v) (JS.Fin 75)) eqn:Ehi;
      [rewrite (ge_antitone v v' 75 Hle Ehi); cbn; lia|].
    destruct (JS.ge (JS.Fin v) (JS.Fin 50)) eqn:Elo;
      [rewrite (ge_antitone v v' 50 Hle Elo);
       destruct (JS.ge (JS.Fin v') (JS.Fin 75)); cbn; lia|].
    destruct (JS.ge (JS.Fin v') (JS.Fin 75)); [cbn; lia|].
    destruct (JS.ge (JS.Fin v') (JS.Fin 50)); cbn; lia.
  - intros node node' Hn Hn'. unfold getNodeColor. rewrite Hn, Hn'.
    rank_two_steps v v' 80 55 Hle.
Qed.

Lemma colours_monotone_witness :
  (colourRank (getSensorColor "noise" (JS.Fin 70))
   <= colourRank (getSensorColor "noise" (JS.Fin 90)))%nat.
Proof.
  apply (colours_monotone 70 90). unfold Qle. simpl. lia.
Defined.

(** X23: whatever the generator or the crisis demo flags as an anomaly
    is presented as critical everywhere: label and colour of the
    panel, colour of the map, event type of the log. *)
Theorem anomaly_presented_critical (d : NodeData.t) :
  (exists nodeId coordinates r1 r2 r3 r4 now,
      d = generateMockNodeData nodeId coordinates r1 r2 r3 r4 now)
  \/ (exists selectedNode now, d = crisisData selectedNode now) ->
  NodeData.isAnomaly d = true ->
  getStressLabel (NodeData.stressIndex d) = "CRITICAL ANOMALY"
  /\ getStressColor (NodeData.stressIndex d) = "#FF3B3B"
  /\ getNodeColor d = "#FF3B3B"
  /\ ActivityLogEntry.eventType (generateActivityLog d) = Critical.
Proof.
  intros Hd Ha.
  assert (JS.gt (NodeData.stressIndex d) (JS.Fin 80) = true) as Hgt.
  { destruct Hd as [(nodeId & co & r1 & r2 & r3 & r4 & now & Hd)
                   | (sel & now & Hd)]; subst d.
    - unfold generateMockNodeData in Ha |- *.
      destruct (mock_flag nodeId co (mockSensors r1 r2 r3 r4) now) as [Hflag _].
      cbv zeta in Hflag. rewrite <- Hflag. exact Ha.
    - reflexivity. }
  unfold getStressLabel, getStressColor, getNodeColor, generateActivityLog.
  cbn [ActivityLogEntry.eventType]. rewrite Hgt.
  destruct (NodeData.stressIndex d) as [s|]; [|discriminate Hgt].
  assert (JS.ge (JS.Fin s) (JS.Fin 75) = true) as Hge.
  { unfold JS.gt, JS.ge in Hgt |- *.
    rewrite negb_true_iff, Qle_bool_false in Hgt.
    apply Qle_bool_iff. lra. }
  rewrite Hge. split; [|split; [|split]]; reflexivity.
Qed.

Lemma anomaly_presented_critical_witness :
  getStressLabel (NodeData.stressIndex (crisisData sampleNode 1))
  = "CRITICAL ANOMALY".
Proof.
  apply (anomaly_presented_critical (crisisData sampleNode 1)).
  - right. exists sampleNode, 1%Z. reflexivity.
  - reflexivity.
Defined.

(** X24: a reading at or below all four baselines (noise 40,
    temperature 15, air quality 0, crowd 0) scores 0. *)
Theorem stressIndex_zero_below_baselines (n t a c : Q) :
  n <= 40 -> t <= 15 -> a <= 0 -> c <= 0 ->
  calculateStressIndex (finiteSensors n t a c) = JS.Fin 0.
Proof.
  intros Hn Ht Ha Hc. rewrite calculateStressIndex_finite.
  assert (weightedSum n t a c <= 0) as Hsum.
  { unfold weightedSum, JS.qmin.
    case_Qle ((n - 40) / 60 * 100) 100; case_Qle ((t - 15) / 25 * 100) 100;
      case_Qle (a / 150 * 100) 100; case_Qle (c / 30 * 100) 100;
      norm_div; lra. }
  pose proof (qround_le_Z (weightedSum n t a c) 0 Hsum).
  rewrite Z.max_l by lia. reflexivity.
Qed.

Lemma stressIndex_zero_below_baselines_witness :
  calculateStressIndex (finiteSensors 35 10 0 0) = JS.Fin 0.
Proof.
  apply (stressIndex_zero_below_baselines 35 10 0 0); unfold Qle; simpl; lia.
Defined.
